(** * scrapyd: the job dashboard and the basic-auth gate

    A shallow embedding of [scrapyd/website.py] (the [Jobs] resource and
    [microsec_trunc]) and of [scrapyd/basicauth.py] (the realm and the
    credentials checker), together with the parts of Python's [datetime]
    module that the dashboard computes with. *)

From Stdlib Require Import ZArith Lia Ascii String List DecimalString.
From stdpp Require Import base option gmap strings list.

Local Open Scope Z_scope.

(** ** Python's datetime arithmetic

    [timedelta] keeps the normalised triple (days, seconds, microseconds)
    with [0 <= seconds < 86400] and [0 <= microseconds < 1000000]; the sign
    of a duration lives in [days] alone.  A naive [datetime] is kept by the
    triple its arithmetic works on: the proleptic Gregorian ordinal of its
    date ([toordinal()]), the second of the day and the microsecond.
    An operation whose result leaves the representable range raises
    [OverflowError]; here it returns [None]. *)

Module PyTime.

Definition divmod (a b : Z) : Z * Z := (a / b, a mod b).

Record timedelta : Type := Timedelta {
  days : Z;
  seconds : Z;
  microseconds : Z
}.

Record datetime : Type := Datetime {
  toordinal : Z;
  daysecond : Z;
  microsecond : Z
}.

Definition MAXORDINAL : Z := 3652059.
Definition MAXDAYS : Z := 999999999.

(** [timedelta(days, seconds, microseconds)]: carries microseconds into
    seconds and seconds into days with floor division, then checks the
    range of the days. *)
Definition timedelta_new (d s us : Z) : option timedelta :=
  let '(carry_s, us') := divmod us 1000000 in
  let '(carry_d, s') := divmod (s + carry_s) 86400 in
  let d' := d + carry_d in
  if Z.abs d' >? MAXDAYS then None else Some (Timedelta d' s' us').

(** [timedelta.__neg__] *)
Definition timedelta_neg (t : timedelta) : option timedelta :=
  timedelta_new (- days t) (- seconds t) (- microseconds t).

(** [timedelta.__add__] and [timedelta.__sub__] *)
Definition timedelta_add (a b : timedelta) : option timedelta :=
  timedelta_new (days a + days b) (seconds a + seconds b)
                (microseconds a + microseconds b).

Definition timedelta_sub (a b : timedelta) : option timedelta :=
  timedelta_new (days a - days b) (seconds a - seconds b)
                (microseconds a - microseconds b).

(** [datetime.__add__(timedelta)]: the datetime as a duration since
    ordinal 0, plus the delta; the days of the sum must be an ordinal. *)
Definition datetime_add (a : datetime) (t : timedelta) : option datetime :=
  delta ← timedelta_new (toordinal a) (daysecond a) (microsecond a);
  delta ← timedelta_add delta t;
  if (0 <? days delta) && (days delta <=? MAXORDINAL)
  then Some (Datetime (days delta) (seconds delta) (microseconds delta))
  else None.

(** [datetime.__sub__]: [self + -other] for a timedelta, and the
    field-wise difference as a timedelta for another datetime. *)
Definition datetime_sub_timedelta (a : datetime) (t : timedelta) : option datetime :=
  n ← timedelta_neg t; datetime_add a n.

Definition datetime_sub (a b : datetime) : option timedelta :=
  timedelta_new (toordinal a - toordinal b) (daysecond a - daysecond b)
                (microsecond a - microsecond b).

(** Comparisons go through the tuples of fields, lexicographically. *)
Definition cmp3 (a b : Z * Z * Z) : comparison :=
  let '(a1, a2, a3) := a in
  let '(b1, b2, b3) := b in
  match a1 ?= b1 with
  | Eq => match a2 ?= b2 with Eq => a3 ?= b3 | c => c end
  | c => c
  end.

Definition le_of_cmp (c : comparison) : bool :=
  match c with Gt => false | _ => true end.

Definition timedelta_le (a b : timedelta) : bool :=
  le_of_cmp (cmp3 (days a, seconds a, microseconds a)
                  (days b, seconds b, microseconds b)).

Definition datetime_le (a b : datetime) : bool :=
  le_of_cmp (cmp3 (toordinal a, daysecond a, microsecond a)
                  (toordinal b, daysecond b, microsecond b)).

(** The values Python can build: fields within their ranges. *)
Definition timedelta_wf (t : timedelta) : Prop :=
  - MAXDAYS <= days t <= MAXDAYS /\
  0 <= seconds t < 86400 /\
  0 <= microseconds t < 1000000.

Definition datetime_wf (d : datetime) : Prop :=
  1 <= toordinal d <= MAXORDINAL /\
  0 <= daysecond d < 86400 /\
  0 <= microsecond d < 1000000.

(** The length of a duration and the position of a datetime on the time
    line, in microseconds. *)
Definition timedelta_us (t : timedelta) : Z :=
  (days t * 86400 + seconds t) * 1000000 + microseconds t.

Definition datetime_us (d : datetime) : Z :=
  (toordinal d * 86400 + daysecond d) * 1000000 + microsecond d.

End PyTime.

Import PyTime.

(** ** [microsec_trunc] (website.py) *)

(** What [microsec_trunc] is applied to: a datetime (it has the attribute
    [microsecond]) or a timedelta (it has [microseconds]). *)
Inductive timelike : Type :=
| Moment (d : datetime)
| Duration (t : timedelta).

Definition microsec_trunc (x : timelike) : option timelike :=
  match x with
  | Moment d =>
      let ms := microsecond d in
      step ← timedelta_new 0 0 ms;
      Moment <$> datetime_sub_timedelta d step
  | Duration t =>
      let ms := microseconds t in
      step ← timedelta_new 0 0 ms;
      Duration <$> timedelta_sub t step
  end.

Definition timelike_wf (x : timelike) : Prop :=
  match x with
  | Moment d => datetime_wf d
  | Duration t => timedelta_wf t
  end.

(** [a <= b]; comparing a datetime with a timedelta raises [TypeError]. *)
Definition timelike_le (a b : timelike) : option bool :=
  match a, b with
  | Moment x, Moment y => Some (datetime_le x y)
  | Duration x, Duration y => Some (timedelta_le x y)
  | _, _ => None
  end.

Definition timelike_us (x : timelike) : Z :=
  match x with
  | Moment d => datetime_us d
  | Duration t => timedelta_us t
  end.

Definition subsecond (x : timelike) : Z :=
  match x with
  | Moment d => microsecond d
  | Duration t => microseconds t
  end.

(** ** Text

    A Python [str] is kept as the sequence of its UTF-8 bytes, so that
    [encode('utf-8')] changes nothing and [len] of the encoded document is
    [String.length].  The literals of the source are written with a
    backquote where the source has a double quote; [lit] puts the quotes
    back. *)

Module PyText.

Definition dquote : ascii := ascii_of_nat 34.
Definition backquote : ascii := ascii_of_nat 96.
Definition nl : string := String (ascii_of_nat 10) EmptyString.

Fixpoint lit (s : string) : string :=
  match s with
  | EmptyString => EmptyString
  | String c rest =>
      String (if Ascii.eqb c backquote then dquote else c) (lit rest)
  end.

(** [str.join] *)
Definition join (sep : string) (parts : list string) : string :=
  String.concat sep parts.

(** ['%d' % n] *)
Definition fmt_d (n : Z) : string := NilZero.string_of_int (Z.to_int n).

Fixpoint zeros (n : nat) : string :=
  match n with
  | O => EmptyString
  | S n' => String "0" (zeros n')
  end.

(** ['%0wd' % n]: the sign first, then zeros up to the width. *)
Definition fmt_0d (w : nat) (n : Z) : string :=
  let digits := fmt_d (Z.abs n) in
  if n <? 0
  then "-" +:+ zeros (w - 1 - String.length digits) +:+ digits
  else zeros (w - String.length digits) +:+ digits.

(** *** The calendar: [_ord2ymd] of Python's datetime *)

Definition DAYS_IN_MONTH : list Z :=
  [-1; 31; 28; 31; 30; 31; 30; 31; 31; 30; 31; 30; 31].
Definition DAYS_BEFORE_MONTH : list Z :=
  [-1; 0; 31; 59; 90; 120; 151; 181; 212; 243; 273; 304; 334].

Definition DI400Y : Z := 146097.
Definition DI100Y : Z := 36524.
Definition DI4Y : Z := 1461.

Definition table (t : list Z) (i : Z) : Z := nth (Z.to_nat i) t 0.
Definition Z_of_bool (b : bool) : Z := if b then 1 else 0.

Definition ord2ymd (n : Z) : Z * Z * Z :=
  let n := n - 1 in
  let '(n400, n) := divmod n DI400Y in
  let year := n400 * 400 + 1 in
  let '(n100, n) := divmod n DI100Y in
  let '(n4, n) := divmod n DI4Y in
  let '(n1, n) := divmod n 365 in
  let year := year + (n100 * 100 + n4 * 4 + n1) in
  if (n1 =? 4) || (n100 =? 4) then (year - 1, 12, 31)
  else
    let leapyear := (n1 =? 3) && (negb (n4 =? 24) || (n100 =? 3)) in
    let month := Z.shiftr (n + 50) 5 in
    let preceding :=
      table DAYS_BEFORE_MONTH month + Z_of_bool ((2 <? month) && leapyear) in
    let '(month, preceding) :=
      if preceding >? n
      then (month - 1,
            preceding - (table DAYS_IN_MONTH (month - 1)
                         + Z_of_bool ((month - 1 =? 2) && leapyear)))
      else (month, preceding) in
    (year, month, n - preceding + 1).

(** [str(datetime)] is [isoformat(sep=' ')]; the fraction is printed only
    when the microsecond is not zero. *)
Definition datetime_str (d : datetime) : string :=
  let '(year, month, day) := ord2ymd (toordinal d) in
  let '(hour, rem) := divmod (daysecond d) 3600 in
  let '(minute, second) := divmod rem 60 in
  fmt_0d 4 year +:+ "-" +:+ fmt_0d 2 month +:+ "-" +:+ fmt_0d 2 day +:+ " "
  +:+ fmt_0d 2 hour +:+ ":" +:+ fmt_0d 2 minute +:+ ":" +:+ fmt_0d 2 second
  +:+ (if microsecond d =? 0 then EmptyString
       else "." +:+ fmt_0d 6 (microsecond d)).

(** [str(timedelta)] *)
Definition timedelta_str (t : timedelta) : string :=
  let '(mm, ss) := divmod (seconds t) 60 in
  let '(hh, mm) := divmod mm 60 in
  let s := fmt_d hh +:+ ":" +:+ fmt_0d 2 mm +:+ ":" +:+ fmt_0d 2 ss in
  let s :=
    if days t =? 0 then s
    else fmt_d (days t) +:+ " day"
         +:+ (if Z.abs (days t) =? 1 then EmptyString else "s") +:+ ", " +:+ s in
  if microseconds t =? 0 then s
  else s +:+ "." +:+ fmt_0d 6 (microseconds t).

(** The values that are put into table cells. *)
Inductive pyval : Type :=
| PyNone
| PyStr (s : string)
| PyInt (n : Z)
| PyDatetime (d : datetime)
| PyTimedelta (t : timedelta).

(** [str(v)], which is what ['%s' % v] prints. *)
Definition py_str (v : pyval) : string :=
  match v with
  | PyNone => "None"
  | PyStr s => s
  | PyInt n => fmt_d n
  | PyDatetime d => datetime_str d
  | PyTimedelta t => timedelta_str t
  end.

Definition of_timelike (x : timelike) : pyval :=
  match x with
  | Moment d => PyDatetime d
  | Duration t => PyTimedelta t
  end.

End PyText.

Import PyText.

(** ** The collaborators of the dashboard *)

(** Modelled from the spec: [scrapyd.jobstorage], from which website.py
    imports [job_log_url] and [job_items_url], is not among the sources.
    The spec says the log-location and the items-location are
    "deterministically derived from the record's project/spider/job_id":
    two functions of the project, the spider and the job id. *)
Class JobStorage : Type := {
  job_log_url : string -> string -> string -> string;
  job_items_url : string -> string -> string -> string
}.

(** Modelled from the spec: the queue and the launcher are not among the
    sources.  A pending entry is the message the queue lists (the code
    reads its keys ['name'] and ['_job']); a launcher record carries
    project, spider, job, an optional pid, the start time and, once the
    process has ended, the end time. *)
Record message : Type := Message {
  m_name : string;
  m_job : string
}.

Record process : Type := Process {
  project : string;
  spider : string;
  job : string;
  pid : option Z;
  start_time : datetime;
  end_time : option datetime
}.

(** [poller.queues] is a dict from project to queue, read in insertion
    order by [items()]; [launcher.processes.values()] and
    [launcher.finished] are read as sequences. *)
Record Poller : Type := { queues : list (string * list message) }.

Record Launcher : Type := {
  processes : list process;
  finished : list process
}.

(** ** The resources (website.py) *)

(** [Root]: what [Jobs] reads of it.  [children] is the table of child
    resources, of which only the path segments matter here. *)
Record Root : Type := {
  logsdir : string;
  children : gset string;
  poller : Poller;
  launcher : Launcher
}.

(** [Jobs]: [local_items] is kept by its truth value, [base_path] is the
    attribute that [render] assigns. *)
Record Jobs : Type := {
  root : Root;
  local_items : bool;
  prefix_header : string;
  base_path : string
}.

(** A request: the header lines received, in the order of their arrival
    and under the names the client wrote, and the headers set on the
    response. *)
Record Request : Type := {
  requestHeaders : list (string * string);
  responseHeaders : gmap string string
}.

(** Twisted keeps the received headers by lower-cased name, so a header is
    found whatever the case of the letters in its name.  [lower] is the
    lower-casing of the letters A-Z, which is what [bytes.lower] does to a
    received name and what [str.lower] does to an ASCII name that the code
    asks for; [isascii] is [str.isascii]. *)
Definition lower_char (c : ascii) : ascii :=
  let n := nat_of_ascii c in
  if (65 <=? n)%nat && (n <=? 90)%nat then ascii_of_nat (n + 32) else c.

Fixpoint lower (s : string) : string :=
  match s with
  | EmptyString => EmptyString
  | String c rest => String (lower_char c) (lower rest)
  end.


(** [Headers.getRawHeaders]: the values received under a name, in order. *)
Definition getRawHeaders (name : string) (txrequest : Request) : list string :=
  snd <$> filter (fun nv : string * string => lower nv.1 = lower name)
                 (requestHeaders txrequest).

(** [Request.getHeader]: the last value received under the name, [None]
    when there is none. *)
Definition getHeader (key : string) (txrequest : Request) : option string :=
  last (getRawHeaders key txrequest).


Definition setHeader (key value : string) (txrequest : Request) : Request :=
  {| requestHeaders := requestHeaders txrequest;
     responseHeaders := <[key := value]> (responseHeaders txrequest) |}.

(** [PrefixHeaderMixin.get_base_path]: [getHeader(...) or ''] *)
Definition get_base_path (self : Jobs) (txrequest : Request) : string :=
  match getHeader (prefix_header self) txrequest with
  | Some v => if String.eqb v EmptyString then EmptyString else v
  | None => EmptyString
  end.

(** The clock: [datetime.now()] is read once for every running row; the
    reading taken for the row at position [i] is [clock i]. *)
Definition Clock : Type := nat -> datetime.

(** The two feature flags of the spec, as the code computes them. *)
Definition items_browsable (self : Jobs) : bool := local_items self.

Definition cancel_available (self : Jobs) : bool :=
  bool_decide ("cancel.json"%string ∈ children (root self)).

(** *** [Jobs] *)

Definition cancel_button (base_path project jobid : string) : string :=
  nl +:+ lit "    <form method=`post` action=`" +:+ base_path +:+ lit "/cancel.json`>"
  +:+ nl +:+ lit "    <input type=`hidden` name=`project` value=`" +:+ project +:+ lit "`/>"
  +:+ nl +:+ lit "    <input type=`hidden` name=`job` value=`" +:+ jobid +:+ lit "`/>"
  +:+ nl +:+ lit "    <input type=`submit` style=`float: left;` value=`Cancel`/>"
  +:+ nl +:+ "    </form>"
  +:+ nl +:+ "    ".

Definition header_cols : list string :=
  [ "Project"; "Spider";
    "Job"; "PID";
    "Start"; "Runtime"; "Finish";
    "Log"; "Items";
    "Cancel" ]%string.

(** [list.index]: the first position of [x], [ValueError] when absent. *)
Fixpoint index (x : string) (l : list string) : option nat :=
  match l with
  | [] => None
  | y :: rest => if String.eqb y x then Some O else S <$> index x rest
  end.

(** ['#jobs>*>tr>*:nth-child(%d) {display: none}' % col_idx] *)
Definition hide_rule (col_idx : nat) : string :=
  "#jobs>*>tr>*:nth-child(" +:+ fmt_d (Z.of_nat col_idx) +:+ ") {display: none}".

(** The list [css] of [gen_css] before it is joined. *)
Definition gen_css_rules (self : Jobs) : option (list string) :=
  let css :=
    [ "#jobs>thead td {text-align: center; font-weight: bold}";
      "#jobs>tbody>tr:first-child {background-color: #eee}" ]%string in
  css ←
    (if negb (local_items self)
     then i ← index "Items" header_cols;
          let col_idx := (i + 1)%nat in
          Some (css ++ [hide_rule col_idx])
     else Some css);
  if negb (bool_decide ("cancel.json"%string ∈ children (root self)))
  then i ← index "Cancel" header_cols;
       let col_idx := (i + 1)%nat in
       Some (css ++ [hide_rule col_idx])
  else Some css.

Definition gen_css (self : Jobs) : option string :=
  join nl <$> gen_css_rules self.

(** What [prep_row] is given: a sequence of cells or a dict keyed by
    column name. *)
Inductive row : Type :=
| RowList (cells : list pyval)
| RowDict (cells : gmap string pyval).

(** The first step of [prep_row]: the assertion on the length of a
    sequence ([AssertionError] is [None] here), [cells.get(k)] for every
    column of a dict. *)
Definition row_values (cells : row) : option (list pyval) :=
  match cells with
  | RowList l =>
      if decide (length l = length header_cols) then Some l else None
  | RowDict d => Some ((fun k => default PyNone (d !! k)) <$> header_cols)
  end.

(** ['<td>%s</td>' % ('' if c is None else c)] *)
Definition td (c : pyval) : string :=
  "<td>" +:+ py_str (match c with PyNone => PyStr EmptyString | _ => c end)
  +:+ "</td>".

(** The list [cells] of [prep_row] before it is joined. *)
Definition prep_row_cells (cells : row) : option (list string) :=
  cells ← row_values cells;
  Some (td <$> (cells : list pyval)).

Definition prep_row (cells : row) : option string :=
  (fun cells => "<tr>" +:+ join EmptyString cells +:+ "</tr>") <$> prep_row_cells cells.

Section Tabs.
Context `{JobStorage}.

(** The dicts that the three [prep_tab_*] functions hand to [prep_row]. *)
Definition pending_cells (self : Jobs) (project : string) (m : message)
  : gmap string pyval :=
  {[ "Project"%string := PyStr project;
     "Spider"%string := PyStr (m_name m);
     "Job"%string := PyStr (m_job m);
     "Cancel"%string := PyStr (cancel_button (base_path self) project (m_job m)) ]}.

Definition opt_int (n : option Z) : pyval :=
  match n with Some n => PyInt n | None => PyNone end.

Definition log_link (self : Jobs) (p : process) : string :=
  lit "<a href=`/" +:+ logsdir (root self) +:+ base_path self
  +:+ job_log_url (project p) (spider p) (job p) +:+ lit "`>Log</a>".

Definition items_link (self : Jobs) (p : process) : string :=
  lit "<a href=`" +:+ base_path self
  +:+ job_items_url (project p) (spider p) (job p) +:+ lit "`>Items</a>".

Definition running_dict (self : Jobs) (p : process) (start runtime : timelike)
  : gmap string pyval :=
  {[ "Project"%string := PyStr (project p);
     "Spider"%string := PyStr (spider p);
     "Job"%string := PyStr (job p);
     "PID"%string := opt_int (pid p);
     "Start"%string := of_timelike start;
     "Runtime"%string := of_timelike runtime;
     "Log"%string := PyStr (log_link self p);
     "Items"%string := PyStr (items_link self p);
     "Cancel"%string :=
       PyStr (cancel_button (base_path self) (project p) (job p)) ]}.

Definition finished_dict (self : Jobs) (p : process)
    (start runtime finish : timelike) : gmap string pyval :=
  {[ "Project"%string := PyStr (project p);
     "Spider"%string := PyStr (spider p);
     "Job"%string := PyStr (job p);
     "Start"%string := of_timelike start;
     "Runtime"%string := of_timelike runtime;
     "Finish"%string := of_timelike finish;
     "Log"%string := PyStr (log_link self p);
     "Items"%string := PyStr (items_link self p) ]}.

(** The values of the dict are computed in the order the source writes
    them; [now] is the reading of the clock for this row. *)
Definition running_cells (self : Jobs) (now : datetime) (p : process)
  : option (gmap string pyval) :=
  start ← microsec_trunc (Moment (start_time p));
  elapsed ← datetime_sub now (start_time p);
  runtime ← microsec_trunc (Duration elapsed);
  Some (running_dict self p start runtime).

(** A finished record without an end time makes [p.end_time - p.start_time]
    raise [TypeError]. *)
Definition finished_cells (self : Jobs) (p : process)
  : option (gmap string pyval) :=
  start ← microsec_trunc (Moment (start_time p));
  ended ← end_time p;
  elapsed ← datetime_sub ended (start_time p);
  runtime ← microsec_trunc (Duration elapsed);
  finish ← microsec_trunc (Moment ended);
  Some (finished_dict self p start runtime finish).

(** [for project, queue in queues.items() for m in queue.list()] *)
Definition pending_jobs (self : Jobs) : list (string * message) :=
  '(project, queue) ← queues (poller (root self));
  m ← queue;
  [(project, m)].

Definition pending_rows (self : Jobs) : option (list string) :=
  mapM (fun '(project, m) => prep_row (RowDict (pending_cells self project m)))
       (pending_jobs self).

Definition running_rows (self : Jobs) (clock : Clock) : option (list string) :=
  mapM (fun '(i, p) => cells ← running_cells self (clock i) p; prep_row (RowDict cells))
       (imap pair (processes (launcher (root self)))).

Definition finished_rows (self : Jobs) : option (list string) :=
  mapM (fun p => cells ← finished_cells self p; prep_row (RowDict cells))
       (finished (launcher (root self))).

Definition prep_tab_pending (self : Jobs) : option string :=
  join nl <$> pending_rows self.

Definition prep_tab_running (self : Jobs) (clock : Clock) : option string :=
  join nl <$> running_rows self clock.

Definition prep_tab_finished (self : Jobs) : option string :=
  join nl <$> finished_rows self.

(** ['<tr><th colspan="%d">...</th></tr>' % len(self.header_cols)] *)
Definition section_header (label : string) : string :=
  lit "<tr><th colspan=`" +:+ fmt_d (Z.of_nat (length header_cols))
  +:+ lit "`>" +:+ label +:+ "</th></tr>".

Definition prep_table (self : Jobs) (clock : Clock) : option string :=
  head_row ← prep_row (RowList (PyStr <$> header_cols));
  pending ← prep_tab_pending self;
  running ← prep_tab_running self clock;
  finished ← prep_tab_finished self;
  Some (lit "<table id=`jobs` border=`1`>"
        +:+ "<thead>" +:+ head_row +:+ "</thead>"
        +:+ "<tbody>"
        +:+ section_header "Pending"
        +:+ pending
        +:+ "</tbody>"
        +:+ "<tbody>"
        +:+ section_header "Running"
        +:+ running
        +:+ "</tbody>"
        +:+ "<tbody>"
        +:+ section_header "Finished"
        +:+ finished
        +:+ "</tbody>"
        +:+ "</table>").

Definition prep_doc (self : Jobs) (clock : Clock) : option string :=
  css ← gen_css self;
  table ← prep_table self clock;
  Some ("<html>"
        +:+ "<head>"
        +:+ "<title>Scrapyd</title>"
        +:+ lit "<style type=`text/css`>" +:+ css +:+ "</style>"
        +:+ "</head>"
        +:+ "<body><h1>Jobs</h1>"
        +:+ lit "<p><a href=`./`>Go up</a></p>"
        +:+ table
        +:+ "</body>"
        +:+ "</html>").

(** [Jobs.render] stores the base path on the resource, builds the
    document and sets two response headers; the result is the resource and
    the request as it leaves them, and the body. *)
Definition render (self : Jobs) (clock : Clock) (txrequest : Request)
  : option (Jobs * Request * string) :=
  let self :=
    {| root := root self;
       local_items := local_items self;
       prefix_header := prefix_header self;
       base_path := get_base_path self txrequest |} in
  doc ← prep_doc self clock;
  let txrequest := setHeader "Content-Type" "text/html; charset=utf-8" txrequest in
  let txrequest :=
    setHeader "Content-Length" (fmt_d (Z.of_nat (String.length doc))) txrequest in
  Some (self, txrequest, doc).

End Tabs.

(** ** The basic-auth gate (basicauth.py) *)

Module BasicAuth.

Definition bytes : Type := list Byte.byte.

#[global] Instance byte_eq_dec : EqDecision Byte.byte := Byte.byte_eq_dec.

(** The interfaces a portal may ask a realm for. *)
Inductive Interface : Type :=
| IResource
| IRealm
| ICredentialsChecker
| IUsernamePassword
| INamed (name : string).

#[global] Instance Interface_eq_dec : EqDecision Interface.
Proof. solve_decision. Defined.

Inductive exception : Type :=
| NotImplementedError
| UnauthorizedLogin.

(** A Deferred that has already fired: [defer.succeed] and [defer.fail]. *)
Inductive Deferred (A : Type) : Type :=
| succeed (result : A)
| fail (failure : exception).
Arguments succeed {A} result.
Arguments fail {A} failure.

Record PublicHTMLRealm (R : Type) : Type := { resource : R }.
Arguments resource {R} _.

(** [requestAvatar(avatarId, mind, *interfaces)]: the triple
    [(IResource, self.resource, lambda: None)], or [NotImplementedError]
    raised. *)
Definition requestAvatar {R A M : Type} (self : PublicHTMLRealm R)
    (avatarId : A) (mind : M) (interfaces : list Interface)
  : exception + (Interface * R * (unit -> unit)) :=
  if decide (IResource ∈ interfaces)
  then inr (IResource, resource self, fun _ => tt)
  else inl NotImplementedError.

(** The checker keeps the configured pair, encoded to bytes. *)
Record StringCredentialsChecker : Type := {
  username : bytes;
  password : bytes
}.

(** [__init__]: the configured strings, encoded as UTF-8. *)
Definition init (username password : string) : StringCredentialsChecker :=
  {| username := String.list_byte_of_string username;
     password := String.list_byte_of_string password |}.

(** The presented credentials ([IUsernamePassword]). *)
Record Credentials : Type := {
  cred_username : bytes;
  cred_password : bytes
}.

(** What the four [print] calls write, in order: a text, the default
    [repr] of an object under its label (the class name and the address;
    the class of the credentials defines no [repr] of its own, so none of
    its attributes is written), and the [repr] of a byte string under its
    label. *)
Inductive printed : Type :=
| PrintText (s : string)
| PrintObject (label : string)
| PrintBytes (label : string) (b : bytes).

Definition requestAvatarId (self : StringCredentialsChecker)
    (credentials : Credentials) : list printed * Deferred bytes :=
  let out :=
    [ PrintText "HELLO!";
      PrintObject "credentials";
      PrintBytes "self.username" (username self);
      PrintBytes "self.password" (password self) ] in
  if decide (cred_username credentials = username self)
  then if decide (cred_password credentials = password self)
       then (out, succeed (cred_username credentials))
       else (out, fail UnauthorizedLogin)
  else (out, fail UnauthorizedLogin).

End BasicAuth.

(** ** The vocabulary of the statements *)

(** An anchor element as the f-strings of the source write it. *)
Definition anchor (target text : string) : string :=
  lit "<a href=`" +:+ target +:+ lit "`>" +:+ text +:+ "</a>".

(** The cell of an absent value. *)
Definition blank : string := "<td></td>".

(** A row of the table body: ten [td] cells between [<tr>] and [</tr>]. *)
Definition ten_cell_row (r : string) : Prop :=
  exists cells : list string,
    length cells = 10%nat
    /\ Forall (fun c => exists text, c = "<td>" +:+ text +:+ "</td>") cells
    /\ r = "<tr>" +:+ join EmptyString cells +:+ "</tr>".

(** The cell of a row that stands under a given column. *)
Definition cell_of (column : string) (cells : list string) : option string :=
  i ← index column header_cols; cells !! i.

(** The Runtime cell of the row that [prep_row] makes of a dict. *)
Definition runtime_cell (d : gmap string pyval) : option string :=
  cells ← prep_row_cells (RowDict d); cell_of "Runtime" cells.

(** The duration floored to a whole number of seconds. *)
Definition whole_seconds (t : timedelta) : timedelta :=
  Timedelta (days t) (seconds t) 0.

Definition on_the_second (d : datetime) : datetime :=
  Datetime (toordinal d) (daysecond d) 0.

(** The records Python can hold: every clock reading and every start time
    is a datetime within range, and every finished record has its end
    time. *)
Definition records_wf (self : Jobs) (clock : Clock) : Prop :=
  (forall i, datetime_wf (clock i))
  /\ Forall (fun p => datetime_wf (start_time p))
            (processes (launcher (root self)))
  /\ Forall (fun p => datetime_wf (start_time p)
                      /\ exists ended, end_time p = Some ended /\ datetime_wf ended)
            (finished (launcher (root self))).

(** A section of the table: a [tbody] that opens with a header row of one
    [th] spanning the ten columns. *)
Definition tbody (label body : string) : string :=
  "<tbody>" +:+ lit "<tr><th colspan=`10`>" +:+ label +:+ "</th></tr>"
  +:+ body +:+ "</tbody>".

Section Targets.
Context `{JobStorage}.

(** The target of the Log link and of the Items link of a record. *)
Definition log_target (self : Jobs) (p : process) : string :=
  "/" +:+ logsdir (root self) +:+ base_path self
  +:+ job_log_url (project p) (spider p) (job p).

Definition items_target (self : Jobs) (p : process) : string :=
  base_path self +:+ job_items_url (project p) (spider p) (job p).

End Targets.

(** ** A sample deployment

    Concrete data on which the definitions are evaluated.  The layout of
    the log and items locations is an example (the one of upstream
    scrapyd); every general statement below holds for any layout. *)

Module Sample.

#[local] Open Scope string_scope.

Definition storage : JobStorage := {|
  job_log_url project spider job :=
    "/logs/" +:+ project +:+ "/" +:+ spider +:+ "/" +:+ job +:+ ".log";
  job_items_url project spider job :=
    "/items/" +:+ project +:+ "/" +:+ spider +:+ "/" +:+ job +:+ ".jl"
|}.

(** 2024-01-15 10:30:05.250000, and 90.7 s and 91.7 s later. *)
Definition T : datetime := Datetime 738900 37805 250000.
Definition T_90_7 : datetime := Datetime 738900 37895 950000.
Definition T_91_7 : datetime := Datetime 738900 37896 950000.

Definition pending_entry : message := Message "quotes" "abc123".

Definition running_job : process :=
  Process "default" "quotes" "run1" (Some 4242) T None.

(** Started at 08:19:59.999999, ended at 08:21:30.700000. *)
Definition finished_job : process :=
  Process "default" "quotes" "fin1" (Some 4100)
          (Datetime 738900 29999 999999) (Some (Datetime 738900 30090 700000)).

Definition site (children : gset string) (pending : list (string * list message))
    (running finished : list process) : Root :=
  {| logsdir := "logs";
     children := children;
     poller := {| queues := pending |};
     launcher := {| processes := running; finished := finished |} |}.

(** A deployment without the cancel service and without local items. *)
Definition bare : Jobs :=
  {| root := site {[ ""; "jobs"; "logs" ]}
                  [("default", [pending_entry])] [running_job] [finished_job];
     local_items := false;
     prefix_header := "X-Forwarded-Prefix";
     base_path := "" |}.

(** The same data with both features on. *)
Definition full : Jobs :=
  {| root := site {[ ""; "jobs"; "logs"; "items"; "cancel.json" ]}
                  [("default", [pending_entry])] [running_job] [finished_job];
     local_items := true;
     prefix_header := "X-Forwarded-Prefix";
     base_path := "" |}.

(** Scenario B of the spec: one pending entry, nothing else. *)
Definition scenario_b : Jobs :=
  {| root := site {[ ""; "jobs"; "logs"; "cancel.json" ]}
                  [("default", [pending_entry])] [] [];
     local_items := false;
     prefix_header := "X-Forwarded-Prefix";
     base_path := "" |}.

Definition behind_proxy : Request :=
  {| requestHeaders := [ ("X-Forwarded-Prefix", "/proxy") ];
     responseHeaders := ∅ |}.

Definition direct : Request :=
  {| requestHeaders := []; responseHeaders := ∅ |}.

(** [bare] as [render] leaves it for a request through the proxy. *)
Definition proxied : Jobs :=
  {| root := root bare;
     local_items := local_items bare;
     prefix_header := prefix_header bare;
     base_path := get_base_path bare behind_proxy |}.

Definition clock_90_7 : Clock := fun _ => T_90_7.
Definition clock_91_7 : Clock := fun _ => T_91_7.

(** The dict of the running row, read 90.7 s after the start. *)
Definition running_dict_90_7 (self : Jobs) : gmap string pyval :=
  running_dict (H := storage) self running_job
               (Moment (on_the_second T)) (Duration (Timedelta 0 90 0)).

End Sample.

(** ** The rest of website.py and basicauth.py *)

(** *** [PrefixHeaderMixin]

    [Home] and [Jobs] share [get_base_path], which reads [self.prefix_header]
    only. *)
Definition mixin_get_base_path (prefix_header : string) (txrequest : Request)
  : string :=
  match getHeader prefix_header txrequest with
  | Some v => if String.eqb v EmptyString then EmptyString else v
  | None => EmptyString
  end.

(** *** The [%] operator on a template and a dict

    The fragment of printf-style formatting that the templates of
    website.py use: text, [%%] and [%(key)s], the key read up to its
    closing parenthesis (parentheses nest).  A missing key raises
    [KeyError], a template that ends inside a directive raises
    [ValueError]; both are [None], as is a directive outside the
    fragment.  The values are strings and are inserted as they are. *)
Inductive directive : Type :=
| Text
| Percent
| Key (depth : nat) (key : string)
| Conversion (key : string).

Fixpoint percent_from (st : directive) (vars : gmap string string)
    (template : string) : option string :=
  match template with
  | EmptyString => match st with Text => Some EmptyString | _ => None end
  | String c rest =>
      match st with
      | Text =>
          if Ascii.eqb c "%" then percent_from Percent vars rest
          else String c <$> percent_from Text vars rest
      | Percent =>
          if Ascii.eqb c "%" then String c <$> percent_from Text vars rest
          else if Ascii.eqb c "(" then percent_from (Key 1 EmptyString) vars rest
          else None
      | Key depth key =>
          if Ascii.eqb c ")" then
            match depth with
            | 1%nat => percent_from (Conversion key) vars rest
            | _ => percent_from (Key (pred depth) (key +:+ String c EmptyString))
                                vars rest
            end
          else if Ascii.eqb c "(" then
            percent_from (Key (S depth) (key +:+ String c EmptyString)) vars rest
          else percent_from (Key depth (key +:+ String c EmptyString)) vars rest
      | Conversion key =>
          if Ascii.eqb c "s" then
            match vars !! key with
            | Some v => String.append v <$> percent_from Text vars rest
            | None => None
            end
          else None
      end
  end.

(** [template % vars] *)
Definition percent_format (template : string) (vars : gmap string string)
  : option string :=
  percent_from Text vars template.

(** *** [Home] *)

Record Home : Type := {
  home_root : Root;
  home_local_items : bool;
  home_prefix_header : string
}.

(** The template of [Home.render_GET] up to the Jobs link. *)
Definition home_head : string :=
  nl
  +:+ "<html>" +:+ nl
  +:+ "<head><title>Scrapyd</title></head>" +:+ nl
  +:+ "<body>" +:+ nl
  +:+ "<h1>Scrapyd</h1>" +:+ nl
  +:+ "<p>Available projects: <b>%(projects)s</b></p>" +:+ nl
  +:+ "<ul>" +:+ nl
  +:+ lit "<li><a href=`%(base_path)s/jobs`>Jobs</a></li>" +:+ nl.

(** The line that is added when items are local. *)
Definition home_items : string :=
  lit "<li><a href=`%(base_path)s/items/`>Items</a></li>".

(** The rest of the template. *)
Definition home_tail : string :=
  nl
  +:+ lit "<li><a href=`%(base_path)s/%(logs_path)s/`>Logs</a></li>" +:+ nl
  +:+ lit "<li><a href=`https://scrapyd.readthedocs.io/en/latest/`>Documentation</a></li>" +:+ nl
  +:+ "</ul>" +:+ nl
  +:+ nl
  +:+ "<h2>How to schedule a spider?</h2>" +:+ nl
  +:+ nl
  +:+ "<p>To schedule a spider you need to use the API (this web UI is only for" +:+ nl
  +:+ "monitoring)</p>" +:+ nl
  +:+ nl
  +:+ lit "<p>Example using <a href=`https://curl.se/`>curl</a>:</p>" +:+ nl
  +:+ "<p><code>curl http://localhost:6800/schedule.json -d project=default -d spider=somespider</code></p>" +:+ nl
  +:+ nl
  +:+ "<p>For more information about the API, see the" +:+ nl
  +:+ lit "<a href=`https://scrapyd.readthedocs.io/en/latest/`>Scrapyd documentation</a></p>" +:+ nl
  +:+ "</body>" +:+ nl
  +:+ "</html>" +:+ nl.

(** [Home.render_GET]; [projects] is what [root.scheduler.list_projects()]
    returns.  The result is the request with the response headers set and
    the body. *)
Definition render_GET (self : Home) (projects : list string)
    (txrequest : Request) : option (Request * string) :=
  let vars : gmap string string :=
    {[ "projects"%string := join ", " projects;
       "base_path"%string := mixin_get_base_path (home_prefix_header self) txrequest;
       "logs_path"%string := logsdir (home_root self) ]} in
  let s := home_head in
  let s := if home_local_items self then s +:+ home_items else s in
  let s := s +:+ home_tail in
  let txrequest := setHeader "Content-Type" "text/html; charset=utf-8" txrequest in
  s ← percent_format s vars;
  let txrequest :=
    setHeader "Content-Length" (fmt_d (Z.of_nat (String.length s))) txrequest in
  Some (txrequest, s).

(** *** [Root.__init__] *)

(** Modelled from the spec: [scrapyd.config.Config] is not among the
    sources.  The record holds what [Root.__init__] gets back from it:
    [config.getboolean('debug', False)], [config.get('runner')],
    [config.get('prefix_header')], [config.get('logs_dir')] and
    [config.get('items_dir')] ([None] when Python's [None] comes back),
    [config.get('node_name', socket.gethostname())] and the pairs of
    [config.items('services', ())]. *)
Record Config : Type := {
  cfg_debug : bool;
  cfg_runner : string;
  cfg_prefix_header : string;
  cfg_logs_dir : option string;
  cfg_items_dir : option string;
  cfg_node_name : string;
  cfg_services : list (string * string)
}.

(** The resources that [Root.__init__] puts into its child table:
    [static.File(path, 'text/plain')], [Home(self, local_items)],
    [Jobs(self, local_items)] and, for a service, the object that
    [load_object(servClsName)(self)] builds. *)
Inductive child : Type :=
| StaticFile (path : string)
| HomeResource (local_items : bool)
| JobsResource (local_items : bool)
| ServiceResource (servClsName : string).

(** [Resource.putChild]: [self.children[path] = child] *)
Definition putChild (path : string) (c : child) (children : gmap string child)
  : gmap string child :=
  <[path := c]> children.

(** [str.encode('ascii', 'ignore')]: every code point above 127 is dropped,
    that is every byte of the UTF-8 text with its high bit set. *)
Fixpoint encode_ascii_ignore (s : string) : string :=
  match s with
  | EmptyString => EmptyString
  | String c rest =>
      if (N_of_ascii c <? 128)%N then String c (encode_ascii_ignore rest)
      else encode_ascii_ignore rest
  end.

(** The attributes of a [Root] after [__init__], with its child table. *)
Record RootObject : Type := {
  ro_debug : bool;
  ro_runner : string;
  ro_prefix_header : string;
  ro_logsdir : string;
  ro_local_items : bool;
  ro_nodename : string;
  ro_children : gmap string child;
  ro_poller : Poller;
  ro_launcher : Launcher
}.

Section RootInit.

(** [urlparse(itemsdir).scheme.lower()], of Python's urllib. *)
Variable scheme_lower : string -> string.

(** The truth value of
    [itemsdir and (urlparse(itemsdir).scheme.lower() in ['', 'file'])]. *)
Definition local_items_of (itemsdir : option string) : bool :=
  match itemsdir with
  | None => false
  | Some d =>
      if String.eqb d EmptyString then false
      else String.eqb (scheme_lower d) EmptyString
           || String.eqb (scheme_lower d) "file"
  end.

(** [for servName, servClsName in services: self.putChild(...)] *)
Definition put_services (services : list (string * string))
    (children : gmap string child) : gmap string child :=
  foldl (fun children '(servName, servClsName) =>
           putChild servName (ServiceResource servClsName) children)
        children services.

(** The child table before the services are added. *)
Definition builtin_children (logsdir : string) (itemsdir : option string)
  : gmap string child :=
  let logsdir_enc := encode_ascii_ignore logsdir in
  let children := putChild logsdir_enc (StaticFile logsdir_enc) ∅ in
  let local_items := local_items_of itemsdir in
  let children := putChild EmptyString (HomeResource local_items) children in
  let children :=
    match itemsdir with
    | Some d =>
        if local_items then putChild "items" (StaticFile d) children
        else children
    | None => children
    end in
  putChild "jobs" (JobsResource local_items) children.

(** [Root.__init__(config, app)]; the poller and the launcher are the
    components that the properties of [Root] look up in [app].  The call
    of [update_projects] at the end acts on those components only and
    leaves the attributes below as they are. *)
Definition Root_init (config : Config) (app_poller : Poller)
    (app_launcher : Launcher) : RootObject :=
  let logsdir :=
    match cfg_logs_dir config with
    | Some d => if String.eqb d EmptyString then "logs"%string else d
    | None => "logs"%string
    end in
  let itemsdir := cfg_items_dir config in
  {| ro_debug := cfg_debug config;
     ro_runner := cfg_runner config;
     ro_prefix_header := cfg_prefix_header config;
     ro_logsdir := logsdir;
     ro_local_items := local_items_of itemsdir;
     ro_nodename := cfg_node_name config;
     ro_children :=
       put_services (cfg_services config) (builtin_children logsdir itemsdir);
     ro_poller := app_poller;
     ro_launcher := app_launcher |}.

End RootInit.

(** What [Jobs] and [Home] read of the root: its logs directory, the path
    segments of its child table, the poller and the launcher. *)
Definition root_of (r : RootObject) : Root :=
  {| logsdir := ro_logsdir r;
     children := dom (ro_children r);
     poller := ro_poller r;
     launcher := ro_launcher r |}.

(** [Jobs.__init__(root, local_items)] as [Root.__init__] calls it; the
    resource keeps a reference to the root, so it sees the children that
    are put after it.  [base_path] is not set before the first render. *)
Definition Jobs_init (r : RootObject) : Jobs :=
  {| root := root_of r;
     local_items := ro_local_items r;
     prefix_header := ro_prefix_header r;
     base_path := EmptyString |}.

(** [Home.__init__(root, local_items)] *)
Definition Home_init (r : RootObject) : Home :=
  {| home_root := root_of r;
     home_local_items := ro_local_items r;
     home_prefix_header := ro_prefix_header r |}.

(** *** The vocabulary of the further statements *)

(** The row of a pending job, written out. *)
Definition pending_row (base project name jobid : string) : string :=
  "<tr>" +:+ "<td>" +:+ project +:+ "</td>" +:+ "<td>" +:+ name +:+ "</td>"
  +:+ "<td>" +:+ jobid +:+ "</td>"
  +:+ "<td></td><td></td><td></td><td></td><td></td><td></td>"
  +:+ "<td>" +:+ cancel_button base project jobid +:+ "</td>" +:+ "</tr>".

(** The home page with its three values in place; [items] says whether
    the Items link is there. *)
Definition home_page (projects base_path logs_path : string) (items : bool)
  : string :=
  nl +:+ "<html>" +:+ nl +:+ "<head><title>Scrapyd</title></head>" +:+ nl
  +:+ "<body>" +:+ nl +:+ "<h1>Scrapyd</h1>" +:+ nl
  +:+ "<p>Available projects: <b>" +:+ projects +:+ "</b></p>" +:+ nl
  +:+ "<ul>" +:+ nl +:+ lit "<li><a href=`" +:+ base_path
  +:+ lit "/jobs`>Jobs</a></li>" +:+ nl
  +:+ (if items
       then lit "<li><a href=`" +:+ base_path +:+ lit "/items/`>Items</a></li>"
       else EmptyString)
  +:+
  nl +:+ lit "<li><a href=`" +:+ base_path +:+ "/" +:+ logs_path
  +:+ lit "/`>Logs</a></li>" +:+ nl
  +:+ lit "<li><a href=`https://scrapyd.readthedocs.io/en/latest/`>Documentation</a></li>"
  +:+ nl +:+ "</ul>" +:+ nl +:+ nl +:+ "<h2>How to schedule a spider?</h2>"
  +:+ nl +:+ nl
  +:+ "<p>To schedule a spider you need to use the API (this web UI is only for"
  +:+ nl +:+ "monitoring)</p>" +:+ nl +:+ nl
  +:+ lit "<p>Example using <a href=`https://curl.se/`>curl</a>:</p>" +:+ nl
  +:+ "<p><code>curl http://localhost:6800/schedule.json -d project=default -d spider=somespider</code></p>"
  +:+ nl +:+ nl +:+ "<p>For more information about the API, see the" +:+ nl
  +:+ lit "<a href=`https://scrapyd.readthedocs.io/en/latest/`>Scrapyd documentation</a></p>"
  +:+ nl +:+ "</body>" +:+ nl +:+ "</html>" +:+ nl.

(** * Properties *)

(** ** Evaluating the text functions *)

Example ex_datetime_str :
  datetime_str (Datetime 738900 37805 700000) = "2024-01-15 10:30:05.700000"%string
  /\ datetime_str (Datetime 738945 0 0) = "2024-02-29 00:00:00"%string
  /\ datetime_str (Datetime 730485 86399 0) = "2000-12-31 23:59:59"%string
  /\ datetime_str (Datetime 693655 0 0) = "1900-03-01 00:00:00"%string
  /\ datetime_str (Datetime 3652059 0 0) = "9999-12-31 00:00:00"%string
  /\ datetime_str (Datetime 1 0 0) = "0001-01-01 00:00:00"%string.
Proof. repeat split; vm_compute; reflexivity. Qed.

Example ex_timedelta_str :
  timedelta_str (Timedelta 0 90 0) = "0:01:30"%string
  /\ timedelta_str (Timedelta (-1) 86399 700000) = "-1 day, 23:59:59.700000"%string
  /\ timedelta_str (Timedelta 2 3661 5) = "2 days, 1:01:01.000005"%string
  /\ timedelta_str (Timedelta 1 0 0) = "1 day, 0:00:00"%string.
Proof. repeat split; vm_compute; reflexivity. Qed.

Example ex_fmt :
  fmt_0d 2 (-5) = "-5"%string /\ fmt_0d 3 (-5) = "-05"%string
  /\ fmt_0d 4 7 = "0007"%string /\ fmt_d 0 = "0"%string /\ fmt_d (-12) = "-12"%string.
Proof. repeat split; vm_compute; reflexivity. Qed.

(** ** Truncation *)

#[local] Arguments timedelta_new : simpl never.
#[local] Arguments datetime_add : simpl never.

Lemma timedelta_new_eq d s us d' s' us' :
  (d * 86400 + s) * 1000000 + us = (d' * 86400 + s') * 1000000 + us' ->
  - MAXDAYS <= d' <= MAXDAYS -> 0 <= s' < 86400 -> 0 <= us' < 1000000 ->
  timedelta_new d s us = Some (Timedelta d' s' us').
Proof.
  intros Heq Hd Hs Hus. unfold timedelta_new, divmod.
  assert (Hr : us mod 1000000 = us') by (Z.div_mod_to_equations; lia).
  assert (Hq : (s + us / 1000000) mod 86400 = s') by (Z.div_mod_to_equations; lia).
  assert (Hc : d + (s + us / 1000000) / 86400 = d') by (Z.div_mod_to_equations; lia).
  rewrite Hr, Hq, Hc.
  destruct (Z.gtb_spec (Z.abs d') MAXDAYS) as [Hgt|_]; [lia | reflexivity].
Qed.

Lemma timedelta_new_normal d s us :
  - MAXDAYS <= d <= MAXDAYS -> 0 <= s < 86400 -> 0 <= us < 1000000 ->
  timedelta_new d s us = Some (Timedelta d s us).
Proof. intros. now apply timedelta_new_eq. Qed.

Lemma timedelta_trunc t :
  timedelta_wf t ->
  microsec_trunc (Duration t) = Some (Duration (Timedelta (days t) (seconds t) 0)).
Proof.
  intros (Hd & Hs & Hus). unfold microsec_trunc, timedelta_sub.
  rewrite timedelta_new_normal by (unfold MAXDAYS; lia). cbn.
  rewrite (timedelta_new_eq _ _ _ (days t) (seconds t) 0) by lia.
  reflexivity.
Qed.

Lemma datetime_trunc d :
  datetime_wf d ->
  microsec_trunc (Moment d) = Some (Moment (Datetime (toordinal d) (daysecond d) 0)).
Proof.
  intros (Hd & Hs & Hus). unfold MAXORDINAL in Hd.
  unfold microsec_trunc, datetime_sub_timedelta, timedelta_neg.
  rewrite timedelta_new_normal by (unfold MAXDAYS; lia). cbn.
  destruct (Z.eq_dec (microsecond d) 0) as [Hz|Hnz].
  - rewrite (timedelta_new_eq _ _ _ 0 0 0) by (unfold MAXDAYS; lia). cbn.
    unfold datetime_add, timedelta_add.
    rewrite timedelta_new_normal by (unfold MAXDAYS; lia). cbn.
    rewrite (timedelta_new_eq _ _ _ (toordinal d) (daysecond d) 0)
      by (unfold MAXDAYS; lia).
    cbn. unfold MAXORDINAL.
    destruct (Z.ltb_spec 0 (toordinal d)); [|lia].
    destruct (Z.leb_spec (toordinal d) 3652059); [|lia].
    reflexivity.
  - rewrite (timedelta_new_eq _ _ _ (-1) 86399 (1000000 - microsecond d))
      by (unfold MAXDAYS; lia).
    cbn. unfold datetime_add, timedelta_add.
    rewrite timedelta_new_normal by (unfold MAXDAYS; lia). cbn.
    rewrite (timedelta_new_eq _ _ _ (toordinal d) (daysecond d) 0)
      by (unfold MAXDAYS; lia).
    cbn. unfold MAXORDINAL.
    destruct (Z.ltb_spec 0 (toordinal d)); [|lia].
    destruct (Z.leb_spec (toordinal d) 3652059); [|lia].
    reflexivity.
Qed.


Lemma cmp3_le_last a b c c' :
  c <= c' -> le_of_cmp (cmp3 (a, b, c) (a, b, c')) = true.
Proof.
  intros Hc. unfold cmp3. rewrite !Z.compare_refl.
  destruct (Z.compare_spec c c'); simpl; trivial; lia.
Qed.

(** C4: on every datetime and every duration Python can build,
    [microsec_trunc] returns a value [y] of the same kind that is a fixed
    point of [microsec_trunc] (truncating twice is truncating once), that
    compares [<=] to its argument (never rounded up), and that is the
    argument floored to a whole number of seconds.  The function is a
    function of its argument alone. *)
Theorem microsec_trunc_idempotent_never_up (x : timelike) :
  timelike_wf x ->
  exists y,
    microsec_trunc x = Some y
    /\ timelike_wf y
    /\ (y' ← microsec_trunc x; microsec_trunc y') = microsec_trunc x
    /\ timelike_le y x = Some true
    /\ subsecond y = 0
    /\ timelike_us y = 1000000 * (timelike_us x / 1000000).
Proof.
  intros Hwf. destruct x as [d|t]; cbn in Hwf.
  - pose proof Hwf as (Hd & Hs & Hus).
    assert (Hwf' : datetime_wf (Datetime (toordinal d) (daysecond d) 0))
      by (unfold datetime_wf; cbn; lia).
    exists (Moment (Datetime (toordinal d) (daysecond d) 0)).
    rewrite datetime_trunc by assumption.
    repeat split; try (cbn; lia).
    + cbn [mbind option_bind]. now rewrite datetime_trunc.
    + unfold timelike_le, datetime_le. f_equal. apply cmp3_le_last. cbn. lia.
    + cbn. unfold datetime_us. cbn. Z.div_mod_to_equations. lia.
  - pose proof Hwf as (Hd & Hs & Hus).
    assert (Hwf' : timedelta_wf (Timedelta (days t) (seconds t) 0))
      by (unfold timedelta_wf; cbn; lia).
    exists (Duration (Timedelta (days t) (seconds t) 0)).
    rewrite timedelta_trunc by assumption.
    repeat split; try (cbn; lia).
    + cbn [mbind option_bind]. now rewrite timedelta_trunc.
    + unfold timelike_le, timedelta_le. f_equal. apply cmp3_le_last. cbn. lia.
    + cbn. unfold timedelta_us. cbn. Z.div_mod_to_equations. lia.
Qed.

(** The theorem at the duration 90.7 s. *)
Lemma microsec_trunc_idempotent_never_up_witness :
  exists y,
    microsec_trunc (Duration (Timedelta 0 90 700000)) = Some y
    /\ timelike_wf y
    /\ (y' ← microsec_trunc (Duration (Timedelta 0 90 700000)); microsec_trunc y')
       = microsec_trunc (Duration (Timedelta 0 90 700000))
    /\ timelike_le y (Duration (Timedelta 0 90 700000)) = Some true
    /\ subsecond y = 0
    /\ timelike_us y
       = 1000000 * (timelike_us (Duration (Timedelta 0 90 700000)) / 1000000).
Proof.
  apply (microsec_trunc_idempotent_never_up (Duration (Timedelta 0 90 700000))).
  cbn. unfold timedelta_wf, MAXDAYS. cbn. lia.
Defined.

Example ex_trunc_negative :
  microsec_trunc (Duration (Timedelta (-1) 86399 700000))
  = Some (Duration (Timedelta (-1) 86399 0))
  /\ microsec_trunc (Moment (Datetime 738900 37805 700000))
     = Some (Moment (Datetime 738900 37805 0)).
Proof. split; vm_compute; reflexivity. Qed.

(** ** The basic-auth gate *)

Section Gate.
Import BasicAuth.

Lemma requestAvatarId_result self credentials :
  snd (requestAvatarId self credentials)
  = if decide (cred_username credentials = username self
               /\ cred_password credentials = password self)
    then succeed (cred_username credentials)
    else fail UnauthorizedLogin.
Proof.
  unfold requestAvatarId.
  repeat case_decide; simpl; try reflexivity; tauto.
Qed.

(** C1: for every configured pair and every presented pair, the check
    succeeds exactly when the presented username and the presented
    password both equal the configured ones, byte for byte; the identity
    it then returns is the presented username; in every other case the
    result is the failure [UnauthorizedLogin]. *)
Theorem requestAvatarId_succeeds_iff_equal
    (self : StringCredentialsChecker) (credentials : Credentials) :
  ((exists identity, snd (requestAvatarId self credentials) = succeed identity)
   <-> (cred_username credentials = username self
        /\ cred_password credentials = password self))
  /\ (forall identity,
        snd (requestAvatarId self credentials) = succeed identity ->
        identity = cred_username credentials)
  /\ (~ (cred_username credentials = username self
         /\ cred_password credentials = password self)
      <-> snd (requestAvatarId self credentials) = fail UnauthorizedLogin).
Proof.
  rewrite requestAvatarId_result.
  case_decide as Heq.
  - split; [|split].
    + split; [tauto|]. intros _. now exists (cred_username credentials).
    + intros identity [= <-]. reflexivity.
    + split; [tauto|discriminate].
  - split; [|split].
    + split; [|tauto]. intros [identity Hid]. discriminate.
    + intros identity Hid. discriminate.
    + split; [reflexivity|tauto].
Qed.

(** A difference in one byte of either field is enough to fail. *)
Lemma requestAvatarId_one_byte_off self credentials i :
  cred_username credentials !! i <> username self !! i
  \/ cred_password credentials !! i <> password self !! i ->
  snd (requestAvatarId self credentials) = fail UnauthorizedLogin.
Proof.
  intros Hdiff. rewrite requestAvatarId_result.
  case_decide as Heq; [|reflexivity].
  destruct Heq as [Hu Hp]. rewrite Hu, Hp in Hdiff. tauto.
Qed.

(** Scenario A of the spec: the pair ("scrapy", "scrapy"). *)
Example ex_scenario_a :
  let scrapy := String.list_byte_of_string "scrapy" in
  let wrong := String.list_byte_of_string "wrong" in
  let checker := init "scrapy" "scrapy" in
  snd (requestAvatarId checker {| cred_username := scrapy; cred_password := scrapy |})
  = succeed scrapy
  /\ snd (requestAvatarId checker {| cred_username := scrapy; cred_password := wrong |})
     = fail UnauthorizedLogin.
Proof. split; vm_compute; reflexivity. Qed.

(** C8: whoever the authenticated identity is, a request that names
    [IResource] is granted the one resource the realm holds, the same for
    every identity and every mind, and a request that names only other
    interfaces fails with [NotImplementedError]. *)
Theorem requestAvatar_single_resource {R A M : Type}
    (self : PublicHTMLRealm R) (avatarId : A) (mind : M)
    (interfaces : list Interface) :
  (IResource ∈ interfaces ->
   exists logout,
     requestAvatar self avatarId mind interfaces
     = inr (IResource, resource self, logout))
  /\ (IResource ∉ interfaces ->
      requestAvatar self avatarId mind interfaces = inl NotImplementedError)
  /\ (forall (avatarId' : A) (mind' : M),
        requestAvatar self avatarId' mind' interfaces
        = requestAvatar self avatarId mind interfaces).
Proof.
  unfold requestAvatar. repeat split.
  - intros Hin. case_decide; [|tauto]. now eexists.
  - intros Hout. case_decide; [tauto|reflexivity].
Qed.

Example ex_requestAvatar :
  requestAvatar {| resource := 7%nat |} "scrapy"%string tt [IRealm; INamed "IMailbox"]
  = inl NotImplementedError
  /\ match requestAvatar {| resource := 7%nat |} "scrapy"%string tt
                             [INamed "IMailbox"; IResource] with
     | inr (interface, granted, _) => Some (interface, granted)
     | inl _ => None
     end = Some (IResource, 7%nat).
Proof. split; vm_compute; reflexivity. Qed.

End Gate.

(** ** Rows and cells *)

Lemma append_assoc (a b c : string) : (a +:+ b) +:+ c = a +:+ b +:+ c.
Proof.
  induction a as [|ch a IH]; [reflexivity|].
  change (String ch ((a +:+ b) +:+ c) = String ch (a +:+ b +:+ c)).
  now rewrite IH.
Qed.

Lemma td_is_td (c : pyval) : exists text, td c = "<td>" +:+ text +:+ "</td>".
Proof. unfold td. eauto. Qed.

Lemma td_none : td PyNone = blank.
Proof. reflexivity. Qed.

Lemma td_str (s : string) : td (PyStr s) = "<td>" +:+ s +:+ "</td>".
Proof. reflexivity. Qed.

Lemma row_values_dict (d : gmap string pyval) :
  row_values (RowDict d)
  = Some ((fun k => default PyNone (d !! k)) <$> header_cols).
Proof. reflexivity. Qed.

Lemma prep_row_cells_dict (d : gmap string pyval) :
  prep_row_cells (RowDict d)
  = Some ((fun k => td (default PyNone (d !! k))) <$> header_cols).
Proof. reflexivity. Qed.

Lemma prep_row_dict_ten (d : gmap string pyval) :
  exists r, prep_row (RowDict d) = Some r /\ ten_cell_row r.
Proof.
  eexists. split; [reflexivity|].
  eexists. split; [|split; [|reflexivity]].
  - reflexivity.
  - repeat constructor; apply td_is_td.
Qed.

Lemma mapM_prep_row_ten {A : Type} (f : A -> option (gmap string pyval))
    (l : list A) (rows : list string) :
  mapM (fun x => cells ← f x; prep_row (RowDict cells)) l = Some rows ->
  Forall ten_cell_row rows.
Proof.
  intros Hrows. apply mapM_Some_1 in Hrows.
  induction Hrows as [|x r l rows Hx _ IH]; constructor; [|exact IH].
  destruct (f x) as [d|]; [|discriminate].
  destruct (prep_row_dict_ten d) as (r' & Hr' & Hten).
  cbn [mbind option_bind] in Hx. congruence.
Qed.

Section Cells.
Context `{JobStorage}.

Lemma pending_row_cells self project m :
  prep_row_cells (RowDict (pending_cells self project m))
  = Some [ td (PyStr project); td (PyStr (m_name m)); td (PyStr (m_job m));
           blank; blank; blank; blank; blank; blank;
           td (PyStr (cancel_button (base_path self) project (m_job m))) ].
Proof. reflexivity. Qed.

Lemma running_row_cells self p start runtime :
  prep_row_cells (RowDict (running_dict self p start runtime))
  = Some [ td (PyStr (project p)); td (PyStr (spider p)); td (PyStr (job p));
           td (opt_int (pid p)); td (of_timelike start);
           td (of_timelike runtime); blank;
           td (PyStr (log_link self p)); td (PyStr (items_link self p));
           td (PyStr (cancel_button (base_path self) (project p) (job p))) ].
Proof. reflexivity. Qed.

Lemma finished_row_cells self p start runtime finish :
  prep_row_cells (RowDict (finished_dict self p start runtime finish))
  = Some [ td (PyStr (project p)); td (PyStr (spider p)); td (PyStr (job p));
           blank; td (of_timelike start); td (of_timelike runtime);
           td (of_timelike finish);
           td (PyStr (log_link self p)); td (PyStr (items_link self p));
           blank ].
Proof. reflexivity. Qed.

Lemma running_cells_inv self now p d :
  running_cells self now p = Some d ->
  exists start runtime, d = running_dict self p start runtime.
Proof.
  unfold running_cells. intros Hd.
  destruct (microsec_trunc (Moment (start_time p))) as [start|]; [|discriminate].
  cbn [mbind option_bind] in Hd.
  destruct (datetime_sub now (start_time p)) as [elapsed|]; [|discriminate].
  cbn [mbind option_bind] in Hd.
  destruct (microsec_trunc (Duration elapsed)) as [runtime|]; [|discriminate].
  cbn [mbind option_bind] in Hd. injection Hd as <-. eauto.
Qed.

Lemma finished_cells_inv self p d :
  finished_cells self p = Some d ->
  exists start runtime finish, d = finished_dict self p start runtime finish.
Proof.
  unfold finished_cells. intros Hd.
  destruct (microsec_trunc (Moment (start_time p))) as [start|]; [|discriminate].
  cbn [mbind option_bind] in Hd.
  destruct (end_time p) as [ended|]; [|discriminate].
  cbn [mbind option_bind] in Hd.
  destruct (datetime_sub ended (start_time p)) as [elapsed|]; [|discriminate].
  cbn [mbind option_bind] in Hd.
  destruct (microsec_trunc (Duration elapsed)) as [runtime|]; [|discriminate].
  cbn [mbind option_bind] in Hd.
  destruct (microsec_trunc (Moment ended)) as [finish|]; [|discriminate].
  cbn [mbind option_bind] in Hd. injection Hd as <-. eauto.
Qed.

End Cells.

(** ** Start, Runtime and Finish *)

Lemma datetime_sub_spec (a b : datetime) :
  datetime_wf a -> datetime_wf b ->
  exists t, datetime_sub a b = Some t
            /\ timedelta_wf t
            /\ timedelta_us t = datetime_us a - datetime_us b.
Proof.
  intros (Ha1 & Ha2 & Ha3) (Hb1 & Hb2 & Hb3). unfold MAXORDINAL in *.
  set (total := datetime_us a - datetime_us b).
  exists (Timedelta (total / 86400000000) (total / 1000000 mod 86400)
                    (total mod 1000000)).
  assert (Hrange : -315537897600000000 <= total <= 315537897600000000)
    by (unfold total, datetime_us; lia).
  split; [|split].
  - apply timedelta_new_eq; unfold MAXDAYS.
    + fold (datetime_us a). unfold total, datetime_us.
      Z.div_mod_to_equations. lia.
    + Z.div_mod_to_equations. lia.
    + Z.div_mod_to_equations. lia.
    + Z.div_mod_to_equations. lia.
  - unfold timedelta_wf, MAXDAYS. cbn. Z.div_mod_to_equations. lia.
  - unfold timedelta_us. cbn. Z.div_mod_to_equations. lia.
Qed.

Lemma whole_seconds_floor (t : timedelta) :
  timedelta_wf t ->
  timedelta_wf (whole_seconds t)
  /\ microseconds (whole_seconds t) = 0
  /\ timedelta_us (whole_seconds t) = 1000000 * (timedelta_us t / 1000000).
Proof.
  intros (Hd & Hs & Hus). unfold whole_seconds, timedelta_wf, timedelta_us. cbn.
  repeat split; try lia. Z.div_mod_to_equations. lia.
Qed.

Lemma whole_seconds_unique (r : timedelta) (n : Z) :
  timedelta_wf r -> microseconds r = 0 -> timedelta_us r = 1000000 * n ->
  r = Timedelta (n / 86400) (n mod 86400) 0.
Proof.
  destruct r as [d s us]. unfold timedelta_wf, timedelta_us. cbn.
  intros (Hd & Hs & Hus) -> Hn. f_equal; Z.div_mod_to_equations; lia.
Qed.

Section Times.
Context `{JobStorage}.

Lemma running_cells_some self now p :
  datetime_wf now -> datetime_wf (start_time p) ->
  exists elapsed,
    datetime_sub now (start_time p) = Some elapsed
    /\ timedelta_wf elapsed
    /\ timedelta_us elapsed = datetime_us now - datetime_us (start_time p)
    /\ running_cells self now p
       = Some (running_dict self p (Moment (on_the_second (start_time p)))
                 (Duration (whole_seconds elapsed))).
Proof.
  intros Hnow Hstart.
  destruct (datetime_sub_spec now (start_time p) Hnow Hstart)
    as (elapsed & Hsub & Hwf & Hus).
  exists elapsed. do 3 (split; [assumption|]).
  unfold running_cells.
  rewrite datetime_trunc by assumption. cbn [mbind option_bind].
  rewrite Hsub. cbn [mbind option_bind].
  rewrite timedelta_trunc by assumption. reflexivity.
Qed.

Lemma finished_cells_some self p ended :
  end_time p = Some ended ->
  datetime_wf ended -> datetime_wf (start_time p) ->
  exists elapsed,
    datetime_sub ended (start_time p) = Some elapsed
    /\ timedelta_wf elapsed
    /\ timedelta_us elapsed = datetime_us ended - datetime_us (start_time p)
    /\ finished_cells self p
       = Some (finished_dict self p (Moment (on_the_second (start_time p)))
                 (Duration (whole_seconds elapsed))
                 (Moment (on_the_second ended))).
Proof.
  intros Hend Hended Hstart.
  destruct (datetime_sub_spec ended (start_time p) Hended Hstart)
    as (elapsed & Hsub & Hwf & Hus).
  exists elapsed. do 3 (split; [assumption|]).
  unfold finished_cells.
  rewrite datetime_trunc by assumption. cbn [mbind option_bind].
  rewrite Hend. cbn [mbind option_bind].
  rewrite Hsub. cbn [mbind option_bind].
  rewrite timedelta_trunc by assumption. cbn [mbind option_bind].
  rewrite datetime_trunc by assumption. reflexivity.
Qed.

(** C3: the Runtime cell of a finished record shows [end_time -
    start_time] floored to whole seconds, and nothing of the clock enters
    [finished_cells]; the Runtime cell of a running record shows the clock
    reading taken for its row minus [start_time], floored to whole
    seconds, so that a reading 90.7 s after the start shows 90 s, which
    [str] prints as 0:01:30. *)
Theorem runtime_cell_whole_seconds
    (self : Jobs) (now : datetime) (p q : process) (ended : datetime) :
  datetime_wf now -> datetime_wf (start_time p) ->
  datetime_wf (start_time q) -> end_time q = Some ended -> datetime_wf ended ->
  (exists d r,
     finished_cells self q = Some d
     /\ d !! "Runtime"%string = Some (PyTimedelta r)
     /\ runtime_cell d = Some ("<td>" +:+ timedelta_str r +:+ "</td>")
     /\ timedelta_wf r /\ microseconds r = 0
     /\ timedelta_us r
        = 1000000 * ((datetime_us ended - datetime_us (start_time q)) / 1000000))
  /\ (exists d r,
        running_cells self now p = Some d
        /\ d !! "Runtime"%string = Some (PyTimedelta r)
        /\ runtime_cell d = Some ("<td>" +:+ timedelta_str r +:+ "</td>")
        /\ timedelta_wf r /\ microseconds r = 0
        /\ timedelta_us r
           = 1000000 * ((datetime_us now - datetime_us (start_time p)) / 1000000)
        /\ (datetime_us now = datetime_us (start_time p) + 90700000 ->
            r = Timedelta 0 90 0
            /\ runtime_cell d = Some "<td>0:01:30</td>"%string)).
Proof.
  intros Hnow Hp Hq Hend Hended. split.
  - destruct (finished_cells_some self q ended Hend Hended Hq)
      as (elapsed & _ & Hwf & Hus & Hcells).
    destruct (whole_seconds_floor elapsed Hwf) as (Hwf' & Hzero & Hfloor).
    exists (finished_dict self q (Moment (on_the_second (start_time q)))
              (Duration (whole_seconds elapsed)) (Moment (on_the_second ended))),
           (whole_seconds elapsed).
    rewrite <- Hus.
    split; [assumption|]. split; [reflexivity|]. split; [reflexivity|].
    split; [assumption|]. split; assumption.
  - destruct (running_cells_some self now p Hnow Hp)
      as (elapsed & _ & Hwf & Hus & Hcells).
    destruct (whole_seconds_floor elapsed Hwf) as (Hwf' & Hzero & Hfloor).
    exists (running_dict self p (Moment (on_the_second (start_time p)))
              (Duration (whole_seconds elapsed))),
           (whole_seconds elapsed).
    rewrite <- Hus.
    split; [assumption|]. split; [reflexivity|]. split; [reflexivity|].
    split; [assumption|]. split; [assumption|]. split; [assumption|].
    intros Hlate.
    assert (Hr : whole_seconds elapsed = Timedelta 0 90 0).
    { rewrite (whole_seconds_unique (whole_seconds elapsed) 90 Hwf' Hzero);
        [reflexivity|].
      rewrite Hfloor, Hus, Hlate.
      replace (datetime_us (start_time p) + 90700000 - datetime_us (start_time p))
        with 90700000 by lia.
      reflexivity. }
    split; [exact Hr|].
    unfold runtime_cell. rewrite running_row_cells. cbn [mbind option_bind].
    rewrite Hr. reflexivity.
Qed.

End Times.

(** The theorem on the sample: a row built 90.7 s after the start. *)
Lemma runtime_cell_whole_seconds_witness :
  exists d,
    running_cells (H := Sample.storage) Sample.bare Sample.T_90_7 Sample.running_job
    = Some d
    /\ runtime_cell d = Some "<td>0:01:30</td>"%string.
Proof.
  destruct (runtime_cell_whole_seconds (H := Sample.storage)
              Sample.bare Sample.T_90_7 Sample.running_job Sample.finished_job
              (Datetime 738900 30090 700000))
    as (_ & d & r & Hcells & _ & _ & _ & _ & _ & Hlate).
  - unfold datetime_wf, MAXORDINAL. cbn. lia.
  - unfold datetime_wf, MAXORDINAL. cbn. lia.
  - unfold datetime_wf, MAXORDINAL. cbn. lia.
  - reflexivity.
  - unfold datetime_wf, MAXORDINAL. cbn. lia.
  - exists d. split; [exact Hcells|]. apply Hlate. reflexivity.
Defined.

Example ex_finished_runtime :
  (d ← finished_cells (H := Sample.storage) Sample.bare Sample.finished_job;
   runtime_cell d) = Some "<td>0:01:30</td>"%string
  /\ (d ← running_cells (H := Sample.storage) Sample.bare Sample.T_91_7
            Sample.running_job;
      runtime_cell d) = Some "<td>0:01:31</td>"%string.
Proof. split; vm_compute; reflexivity. Qed.

(** ** The rules of the style sheet *)

Lemma gen_css_rules_eq (self : Jobs) :
  gen_css_rules self
  = Some ([ "#jobs>thead td {text-align: center; font-weight: bold}";
            "#jobs>tbody>tr:first-child {background-color: #eee}" ]%string
          ++ (if items_browsable self then [] else [hide_rule 9])
          ++ (if cancel_available self then [] else [hide_rule 10])).
Proof.
  unfold gen_css_rules, items_browsable, cancel_available.
  destruct (local_items self);
    destruct (bool_decide ("cancel.json"%string ∈ children (root self)));
    reflexivity.
Qed.

(** The same with the two hiding rules written out. *)
Lemma gen_css_rules_text (self : Jobs) :
  gen_css_rules self
  = Some ([ "#jobs>thead td {text-align: center; font-weight: bold}";
            "#jobs>tbody>tr:first-child {background-color: #eee}" ]%string
          ++ (if items_browsable self then []
              else [ "#jobs>*>tr>*:nth-child(9) {display: none}"%string ])
          ++ (if cancel_available self then []
              else [ "#jobs>*>tr>*:nth-child(10) {display: none}"%string ])).
Proof. rewrite gen_css_rules_eq. reflexivity. Qed.

Ltac closed_membership :=
  match goal with
  | |- _ ∈ _ => apply (bool_decide_unpack _); vm_compute; exact I
  | H : _ ∈ _ |- _ =>
      exfalso; revert H; apply (bool_decide_eq_false_1 _); vm_compute; reflexivity
  end.

(** Which of the two hiding rules the style sheet holds. *)
Lemma hiding_rules (self : Jobs) (rules : list string) :
  gen_css_rules self = Some rules ->
  ("#jobs>*>tr>*:nth-child(9) {display: none}"%string ∈ rules
   <-> items_browsable self = false)
  /\ ("#jobs>*>tr>*:nth-child(10) {display: none}"%string ∈ rules
      <-> cancel_available self = false).
Proof.
  rewrite gen_css_rules_text. intros [= <-].
  destruct (items_browsable self), (cancel_available self);
    (split; split; intros Hx;
     first [ reflexivity | discriminate | closed_membership ]).
Qed.

(** ** What the cells of a row hold *)

Lemma cancel_cell_not_blank (base project jobid : string) :
  td (PyStr (cancel_button base project jobid)) <> blank.
Proof. unfold td, cancel_button, blank, nl. cbv. discriminate. Qed.

Section CellContents.
Context `{JobStorage}.

Lemma prep_doc_eq self clock rules table :
  gen_css_rules self = Some rules ->
  prep_table self clock = Some table ->
  prep_doc self clock
  = Some ("<html><head><title>Scrapyd</title>"
          +:+ lit "<style type=`text/css`>" +:+ join nl rules
          +:+ "</style></head><body><h1>Jobs</h1>"
          +:+ lit "<p><a href=`./`>Go up</a></p>"
          +:+ table +:+ "</body></html>").
Proof.
  intros Hrules Htable. unfold prep_doc, gen_css.
  rewrite Hrules, Htable. reflexivity.
Qed.

Lemma log_link_anchor self p : log_link self p = anchor (log_target self p) "Log".
Proof.
  unfold log_link, anchor, log_target.
  change (lit "<a href=`/") with (lit "<a href=`" +:+ "/").
  now rewrite !append_assoc.
Qed.

Lemma items_link_anchor self p :
  items_link self p = anchor (items_target self p) "Items".
Proof. unfold items_link, anchor, items_target. now rewrite !append_assoc. Qed.

(** The two links as the code builds them: in the row of every running
    and of every finished record, the Items cell is a link whose target is
    the base path followed by the items-location of the record's project,
    spider and job; the Log cell is a link whose target is a slash, the
    name of the logs directory, then the base path, then the log-location
    of the record's project, spider and job.  The base path comes first in
    the Items link and second in the Log link. *)
Lemma log_and_items_cells
    (self : Jobs) (now : datetime) (p : process) (d : gmap string pyval) :
  running_cells self now p = Some d \/ finished_cells self p = Some d ->
  d !! "Log"%string
  = Some (PyStr (anchor ("/" +:+ logsdir (root self) +:+ base_path self
                         +:+ job_log_url (project p) (spider p) (job p)) "Log"))
  /\ d !! "Items"%string
     = Some (PyStr (anchor (base_path self
                            +:+ job_items_url (project p) (spider p) (job p))
                           "Items"))
  /\ exists cells,
       prep_row_cells (RowDict d) = Some cells
       /\ cell_of "Log" cells
          = Some ("<td>" +:+ anchor (log_target self p) "Log" +:+ "</td>")
       /\ cell_of "Items" cells
          = Some ("<td>" +:+ anchor (items_target self p) "Items" +:+ "</td>").
Proof.
  fold (log_target self p). fold (items_target self p).
  rewrite <- log_link_anchor, <- items_link_anchor.
  intros [Hd|Hd].
  - apply running_cells_inv in Hd as (start & runtime & ->).
    split; [reflexivity|]. split; [reflexivity|].
    eexists. split; [apply running_row_cells|]. split; reflexivity.
  - apply finished_cells_inv in Hd as (start & runtime & finish & ->).
    split; [reflexivity|]. split; [reflexivity|].
    eexists. split; [apply finished_row_cells|]. split; reflexivity.
Qed.

(** C6, as the code has it: a pending row has blank PID, Start, Runtime,
    Finish, Log and Items cells and the cancel form in its Cancel cell; a
    running row has a blank Finish cell and the cancel form in its Cancel
    cell; a finished row has blank PID and Cancel cells.  The cancel form
    is written whatever [cancel_available] is.  The flag decides one thing
    only: Cancel being the tenth column, the style element of the rendered
    document holds the rule [#jobs>*>tr>*:nth-child(10) {display: none}],
    which hides that column, exactly when [cancel_available] is false. *)
Theorem blank_cells_by_state (self : Jobs) :
  (forall project m, exists cells,
      prep_row_cells (RowDict (pending_cells self project m)) = Some cells
      /\ cell_of "PID" cells = Some blank
      /\ cell_of "Start" cells = Some blank
      /\ cell_of "Runtime" cells = Some blank
      /\ cell_of "Finish" cells = Some blank
      /\ cell_of "Log" cells = Some blank
      /\ cell_of "Items" cells = Some blank
      /\ cell_of "Cancel" cells
         = Some ("<td>" +:+ cancel_button (base_path self) project (m_job m)
                 +:+ "</td>")
      /\ cell_of "Cancel" cells <> Some blank)
  /\ (forall now p d,
        running_cells self now p = Some d ->
        exists cells,
          prep_row_cells (RowDict d) = Some cells
          /\ cell_of "Finish" cells = Some blank
          /\ cell_of "Cancel" cells
             = Some ("<td>"
                     +:+ cancel_button (base_path self) (project p) (job p)
                     +:+ "</td>")
          /\ cell_of "Cancel" cells <> Some blank)
  /\ (forall p d,
        finished_cells self p = Some d ->
        exists cells,
          prep_row_cells (RowDict d) = Some cells
          /\ cell_of "PID" cells = Some blank
          /\ cell_of "Cancel" cells = Some blank)
  /\ (S <$> index "Cancel" header_cols) = Some 10%nat
  /\ (exists rules,
        gen_css_rules self = Some rules
        /\ gen_css self = Some (join nl rules)
        /\ ("#jobs>*>tr>*:nth-child(10) {display: none}"%string ∈ rules
            <-> cancel_available self = false)
        /\ forall clock table,
             prep_table self clock = Some table ->
             prep_doc self clock
             = Some ("<html><head><title>Scrapyd</title>"
                     +:+ lit "<style type=`text/css`>" +:+ join nl rules
                     +:+ "</style></head><body><h1>Jobs</h1>"
                     +:+ lit "<p><a href=`./`>Go up</a></p>"
                     +:+ table +:+ "</body></html>")).
Proof.
  split; [|split; [|split; [|split; [reflexivity|]]]]; cycle 3.
  { eexists. split; [apply gen_css_rules_text|].
    split; [unfold gen_css; now rewrite gen_css_rules_text|].
    split; [apply (hiding_rules self), gen_css_rules_text|].
    intros clock table Htable.
    now apply prep_doc_eq; [apply gen_css_rules_text|]. }
  - intros project m. eexists. split; [apply pending_row_cells|].
    do 7 (split; [reflexivity|]).
    intros Hblank. apply (f_equal (default blank)) in Hblank.
    exact (cancel_cell_not_blank _ _ _ Hblank).
  - intros now p d Hd.
    apply running_cells_inv in Hd as (start & runtime & ->).
    eexists. split; [apply running_row_cells|].
    do 2 (split; [reflexivity|]).
    intros Hblank. apply (f_equal (default blank)) in Hblank.
    exact (cancel_cell_not_blank _ _ _ Hblank).
  - intros p d Hd.
    apply finished_cells_inv in Hd as (start & runtime & finish & ->).
    eexists. split; [apply finished_row_cells|]. split; reflexivity.
Qed.

Lemma pending_rows_ten self rows :
  pending_rows self = Some rows -> Forall ten_cell_row rows.
Proof.
  intros Hrows. unfold pending_rows in Hrows.
  apply (mapM_prep_row_ten
           (fun '(project, m) => Some (pending_cells self project m))
           (pending_jobs self)).
  rewrite <- Hrows. apply mapM_ext. now intros [project m].
Qed.

Lemma running_rows_ten self clock rows :
  running_rows self clock = Some rows -> Forall ten_cell_row rows.
Proof.
  intros Hrows. unfold running_rows in Hrows.
  apply (mapM_prep_row_ten
           (fun '(i, p) => running_cells self (clock i) p)
           (imap pair (processes (launcher (root self))))).
  rewrite <- Hrows. apply mapM_ext. now intros [i p].
Qed.

Lemma finished_rows_ten self rows :
  finished_rows self = Some rows -> Forall ten_cell_row rows.
Proof.
  intros Hrows. unfold finished_rows in Hrows.
  now apply (mapM_prep_row_ten (finished_cells self)) in Hrows.
Qed.


End CellContents.

(** ** The style sheet and the columns *)

Section Columns.
Context `{JobStorage}.


End Columns.

(** ** The table and the document *)

Section Table.
Context `{JobStorage}.

Lemma pending_rows_some self : is_Some (pending_rows self).
Proof.
  unfold pending_rows. apply mapM_is_Some_2, Forall_forall.
  intros [project m] _. now eexists.
Qed.

Lemma finished_rows_some self clock :
  records_wf self clock -> is_Some (finished_rows self).
Proof.
  intros (_ & _ & Hfin). unfold finished_rows.
  apply mapM_is_Some_2. eapply Forall_impl; [exact Hfin|].
  intros p (Hstart & ended & Hend & Hended). unfold compose.
  destruct (finished_cells_some self p ended Hend Hended Hstart)
    as (elapsed & _ & _ & _ & ->).
  now eexists.
Qed.

Lemma running_rows_some self clock :
  records_wf self clock -> is_Some (running_rows self clock).
Proof.
  intros (Hclock & Hrun & _). unfold running_rows.
  apply mapM_is_Some_2, Forall_forall.
  intros [i p] Hin. apply elem_of_lookup_imap_1 in Hin as (i' & p' & [= -> ->] & Hp).
  apply list_elem_of_lookup_2 in Hp.
  rewrite Forall_forall in Hrun. specialize (Hrun _ Hp).
  change (is_Some (cells ← running_cells self (clock i') p';
                   prep_row (RowDict cells))).
  destruct (running_cells_some self (clock i') p' (Hclock i') Hrun)
    as (elapsed & _ & _ & _ & ->).
  now eexists.
Qed.

Lemma prep_table_eq self clock pending running finished :
  pending_rows self = Some pending ->
  running_rows self clock = Some running ->
  finished_rows self = Some finished ->
  prep_table self clock
  = Some (lit "<table id=`jobs` border=`1`>"
          +:+ "<thead>"
          +:+ "<tr>" +:+ join EmptyString ((fun k => "<td>" +:+ k +:+ "</td>") <$> header_cols)
          +:+ "</tr>"
          +:+ "</thead>"
          +:+ tbody "Pending" (join nl pending)
          +:+ tbody "Running" (join nl running)
          +:+ tbody "Finished" (join nl finished)
          +:+ "</table>").
Proof.
  intros Hp Hr Hf.
  unfold prep_table, prep_tab_pending, prep_tab_running, prep_tab_finished.
  rewrite Hp, Hr, Hf. unfold tbody. rewrite !append_assoc. reflexivity.
Qed.

(** Whenever a table is returned it has this shape. *)
Lemma prep_table_inv self clock table :
  prep_table self clock = Some table ->
  exists pend run fin,
    pending_rows self = Some pend
    /\ running_rows self clock = Some run
    /\ finished_rows self = Some fin
    /\ table
       = lit "<table id=`jobs` border=`1`>"
         +:+ "<thead>"
         +:+ "<tr>" +:+ join EmptyString ((fun k => "<td>" +:+ k +:+ "</td>") <$> header_cols)
         +:+ "</tr>"
         +:+ "</thead>"
         +:+ tbody "Pending" (join nl pend)
         +:+ tbody "Running" (join nl run)
         +:+ tbody "Finished" (join nl fin)
         +:+ "</table>".
Proof.
  intros Htable.
  destruct (pending_rows self) as [pend|] eqn:Hp;
    [|unfold prep_table, prep_tab_pending in Htable; rewrite Hp in Htable;
      discriminate].
  destruct (running_rows self clock) as [run|] eqn:Hr;
    [|unfold prep_table, prep_tab_pending, prep_tab_running in Htable;
      rewrite Hp, Hr in Htable; discriminate].
  destruct (finished_rows self) as [fin|] eqn:Hf;
    [|unfold prep_table, prep_tab_pending, prep_tab_running, prep_tab_finished
        in Htable;
      rewrite Hp, Hr, Hf in Htable; discriminate].
  exists pend, run, fin. do 3 (split; [reflexivity|]).
  rewrite (prep_table_eq self clock pend run fin Hp Hr Hf) in Htable.
  now injection Htable as <-.
Qed.

Lemma prep_table_some self clock :
  records_wf self clock -> is_Some (prep_table self clock).
Proof.
  intros Hwf.
  destruct (pending_rows_some self) as [pend Hp].
  destruct (running_rows_some self clock Hwf) as [run Hr].
  destruct (finished_rows_some self clock Hwf) as [fin Hf].
  rewrite (prep_table_eq self clock pend run fin) by assumption. now eexists.
Qed.

(** With records in range a render returns: no step of it raises. *)
Lemma render_some self clock txrequest :
  (forall i, datetime_wf (clock i)) ->
  Forall (fun p => datetime_wf (start_time p)) (processes (launcher (root self))) ->
  Forall (fun p => datetime_wf (start_time p)
                   /\ exists ended, end_time p = Some ended /\ datetime_wf ended)
         (finished (launcher (root self))) ->
  is_Some (render self clock txrequest).
Proof.
  intros Hclock Hrun Hfin. unfold render.
  match goal with
  | |- context [prep_doc ?j clock] =>
      destruct (prep_table_some j clock) as [table Htable];
        [split; [exact Hclock | split; [exact Hrun | exact Hfin]]|];
      rewrite (prep_doc_eq j clock _ table (gen_css_rules_eq j) Htable)
  end.
  now eexists.
Qed.

(** C7: the table is the header followed by exactly three sections, first
    Pending, then Running, then Finished; each section opens with a row
    made of one header cell that spans the ten columns and carries the
    label, and holds the rows of its jobs, one per line. *)
Theorem three_sections_in_order (self : Jobs) (clock : Clock) :
  records_wf self clock ->
  exists pend run fin : list string,
    pending_rows self = Some pend
    /\ running_rows self clock = Some run
    /\ finished_rows self = Some fin
    /\ length pend = length (pending_jobs self)
    /\ length run = length (processes (launcher (root self)))
    /\ length fin = length (finished (launcher (root self)))
    /\ Forall ten_cell_row (pend ++ run ++ fin)
    /\ section_header "Pending" = lit "<tr><th colspan=`10`>Pending</th></tr>"
    /\ section_header "Running" = lit "<tr><th colspan=`10`>Running</th></tr>"
    /\ section_header "Finished" = lit "<tr><th colspan=`10`>Finished</th></tr>"
    /\ prep_table self clock
       = Some (lit "<table id=`jobs` border=`1`>"
               +:+ "<thead>"
               +:+ "<tr>"
               +:+ join EmptyString ((fun k => "<td>" +:+ k +:+ "</td>") <$> header_cols)
               +:+ "</tr>"
               +:+ "</thead>"
               +:+ tbody "Pending" (join nl pend)
               +:+ tbody "Running" (join nl run)
               +:+ tbody "Finished" (join nl fin)
               +:+ "</table>").
Proof.
  intros Hwf.
  destruct (pending_rows_some self) as [pend Hp].
  destruct (running_rows_some self clock Hwf) as [run Hr].
  destruct (finished_rows_some self clock Hwf) as [fin Hf].
  exists pend, run, fin.
  do 3 (split; [assumption|]).
  split; [|split; [|split; [|split]]].
  - unfold pending_rows in Hp. apply length_mapM in Hp. now rewrite Hp.
  - unfold running_rows in Hr. apply length_mapM in Hr.
    now rewrite length_imap in Hr.
  - unfold finished_rows in Hf. apply length_mapM in Hf. now rewrite Hf.
  - rewrite !Forall_app. split; [|split].
    + now apply (pending_rows_ten self).
    + now apply (running_rows_ten self clock).
    + now apply (finished_rows_ten self).
  - do 3 (split; [reflexivity|]). now apply prep_table_eq.
Qed.

End Table.

Lemma sample_records_wf (clock : Clock) (now : datetime) :
  datetime_wf now -> (forall i, clock i = now) -> records_wf Sample.bare clock.
Proof.
  intros Hnow Hclock. split; [|split].
  - intros i. now rewrite Hclock.
  - repeat constructor; unfold datetime_wf, MAXORDINAL; cbn; lia.
  - repeat constructor; try (unfold datetime_wf, MAXORDINAL; cbn; lia).
    eexists. split; [reflexivity|]. unfold datetime_wf, MAXORDINAL. cbn. lia.
Qed.

(** The theorem on the sample deployment. *)
Lemma three_sections_in_order_witness :
  exists table pend run fin,
    prep_table (H := Sample.storage) Sample.bare Sample.clock_90_7 = Some table
    /\ length pend = 1%nat /\ length run = 1%nat /\ length fin = 1%nat
    /\ table
       = lit "<table id=`jobs` border=`1`>"
         +:+ "<thead>"
         +:+ "<tr>"
         +:+ join EmptyString ((fun k => "<td>" +:+ k +:+ "</td>") <$> header_cols)
         +:+ "</tr>"
         +:+ "</thead>"
         +:+ tbody "Pending" (join nl pend)
         +:+ tbody "Running" (join nl run)
         +:+ tbody "Finished" (join nl fin)
         +:+ "</table>".
Proof.
  destruct (three_sections_in_order (H := Sample.storage)
              Sample.bare Sample.clock_90_7)
    as (pend & run & fin & _ & _ & _ & Hp & Hr & Hf & _ & _ & _ & _ & Htable).
  - apply (sample_records_wf _ Sample.T_90_7); [|reflexivity].
    unfold datetime_wf, MAXORDINAL. cbn. lia.
  - eexists _, pend, run, fin. split; [exact Htable|].
    split; [exact Hp|]. split; [exact Hr|]. split; [exact Hf|]. reflexivity.
Defined.

(** ** What a render depends on *)

Section Render.
Context `{JobStorage}.

Lemma mapM_ext_in {A B : Type} (f g : A -> option B) (l : list A) :
  (forall x, x ∈ l -> f x = g x) -> mapM f l = mapM g l.
Proof.
  induction l as [|x l IH]; intros Hfg; [reflexivity|].
  cbn. rewrite (Hfg x) by left. rewrite IH; [reflexivity|].
  intros y Hy. apply Hfg. now right.
Qed.

Lemma prep_doc_ext (j1 j2 : Jobs) (c1 c2 : Clock) :
  poller (root j1) = poller (root j2) ->
  launcher (root j1) = launcher (root j2) ->
  logsdir (root j1) = logsdir (root j2) ->
  items_browsable j1 = items_browsable j2 ->
  cancel_available j1 = cancel_available j2 ->
  base_path j1 = base_path j2 ->
  (forall i, (i < length (processes (launcher (root j1))))%nat -> c1 i = c2 i) ->
  prep_doc j1 c1 = prep_doc j2 c2.
Proof.
  intros Hpoller Hlauncher Hlogs Hitems Hcancel Hbase Hclock.
  assert (Hcss : gen_css j1 = gen_css j2).
  { unfold gen_css. now rewrite !gen_css_rules_eq, Hitems, Hcancel. }
  assert (Hp : prep_tab_pending j1 = prep_tab_pending j2).
  { unfold prep_tab_pending, pending_rows, pending_jobs. rewrite Hpoller.
    f_equal. apply mapM_ext. intros [project m].
    unfold pending_cells. now rewrite Hbase. }
  assert (Hr : prep_tab_running j1 c1 = prep_tab_running j2 c2).
  { unfold prep_tab_running, running_rows. rewrite <- Hlauncher.
    f_equal. apply mapM_ext_in. intros [i p] Hin.
    apply elem_of_lookup_imap_1 in Hin as (i' & p' & [= -> ->] & Hlook).
    apply lookup_lt_Some in Hlook.
    unfold running_cells, running_dict, log_link, items_link.
    now rewrite (Hclock i' Hlook), Hlogs, Hbase. }
  assert (Hf : prep_tab_finished j1 = prep_tab_finished j2).
  { unfold prep_tab_finished, finished_rows. rewrite Hlauncher.
    f_equal. apply mapM_ext. intros p.
    unfold finished_cells, finished_dict, log_link, items_link.
    now rewrite Hlogs, Hbase. }
  unfold prep_doc, prep_table. now rewrite Hcss, Hp, Hr, Hf.
Qed.

Lemma render_inv (self : Jobs) (clock : Clock) (txrequest : Request) out :
  render self clock txrequest = Some out ->
  exists doc,
    prep_doc {| root := root self;
                local_items := local_items self;
                prefix_header := prefix_header self;
                base_path := get_base_path self txrequest |} clock = Some doc
    /\ out = ({| root := root self;
                 local_items := local_items self;
                 prefix_header := prefix_header self;
                 base_path := get_base_path self txrequest |},
              setHeader "Content-Length" (fmt_d (Z.of_nat (String.length doc)))
                (setHeader "Content-Type" "text/html; charset=utf-8" txrequest),
              doc).
Proof.
  unfold render. intros Hout.
  destruct (prep_doc _ clock) as [doc|]; [|discriminate].
  cbn [mbind option_bind] in Hout. injection Hout as <-. now exists doc.
Qed.

(** C9, as the code has it: the document is a function of the job data,
    the two flags, the base path of the request, the name of the logs
    directory and the readings of the clock taken for the running rows;
    nothing else of the resource or of the request enters it.  A render leaves the resource with the
    base path of the request stored on it and the request with the two
    response headers Content-Type and Content-Length set, and changes
    nothing else. *)
Theorem render_function_of_data_flags_path_logsdir_clock
    (j1 j2 : Jobs) (c1 c2 : Clock) (r1 r2 : Request) :
  poller (root j1) = poller (root j2) ->
  launcher (root j1) = launcher (root j2) ->
  items_browsable j1 = items_browsable j2 ->
  cancel_available j1 = cancel_available j2 ->
  get_base_path j1 r1 = get_base_path j2 r2 ->
  logsdir (root j1) = logsdir (root j2) ->
  (forall i, (i < length (processes (launcher (root j1))))%nat -> c1 i = c2 i) ->
  (snd <$> render j1 c1 r1) = (snd <$> render j2 c2 r2)
  /\ (forall j' r' doc,
        render j1 c1 r1 = Some (j', r', doc) ->
        root j' = root j1
        /\ local_items j' = local_items j1
        /\ prefix_header j' = prefix_header j1
        /\ base_path j' = get_base_path j1 r1
        /\ requestHeaders r' = requestHeaders r1
        /\ responseHeaders r'
           = <["Content-Length"%string := fmt_d (Z.of_nat (String.length doc))]>
               (<["Content-Type"%string := "text/html; charset=utf-8"%string]>
                  (responseHeaders r1))).
Proof.
  intros Hpoller Hlauncher Hitems Hcancel Hbase Hlogs Hclock. split.
  - unfold render.
    rewrite (prep_doc_ext
               {| root := root j1; local_items := local_items j1;
                  prefix_header := prefix_header j1;
                  base_path := get_base_path j1 r1 |}
               {| root := root j2; local_items := local_items j2;
                  prefix_header := prefix_header j2;
                  base_path := get_base_path j2 r2 |} c1 c2);
      try assumption.
    now destruct (prep_doc _ c2).
  - intros j' r' doc Hout.
    apply render_inv in Hout as (doc' & _ & [= -> -> ->]).
    repeat split.
Qed.

End Render.

(** The theorem on the sample: a resource that still carries the base
    path of an earlier request and has one more child, and a request with
    one more header, give the same document. *)
Lemma render_function_witness :
  (snd <$> render (H := Sample.storage) Sample.bare Sample.clock_90_7
                  Sample.behind_proxy)
  = (snd <$> render (H := Sample.storage)
               {| root := Sample.site {[ "jobs"; "extra" ]}%string
                            [("default", [Sample.pending_entry])]%string
                            [Sample.running_job] [Sample.finished_job];
                  local_items := false;
                  prefix_header := "X-Prefix";
                  base_path := "/stale" |}
               (fun _ => Sample.T_90_7)
               {| requestHeaders :=
                    [ ("Accept", "text/html"); ("x-prefix", "/proxy") ]%string;
                  responseHeaders := {[ "Server" := "scrapyd" ]}%string |}).
Proof.
  apply render_function_of_data_flags_path_logsdir_clock.
  - reflexivity.
  - reflexivity.
  - reflexivity.
  - vm_compute. reflexivity.
  - vm_compute. reflexivity.
  - reflexivity.
  - intros i _. reflexivity.
Defined.

(** C9 as stated fails: the same data, flags and base path, rendered at
    two readings of the clock one second apart, give two documents; and a
    render through the proxy leaves the base path /proxy on the resource
    and two headers on the response. *)
Lemma render_differs_with_the_clock :
  (exists doc1 doc2,
     (snd <$> render (H := Sample.storage) Sample.bare Sample.clock_90_7 Sample.direct)
     = Some doc1
     /\ (snd <$> render (H := Sample.storage) Sample.bare Sample.clock_91_7 Sample.direct)
        = Some doc2
     /\ doc1 <> doc2)
  /\ (exists doc,
        render (H := Sample.storage) Sample.bare Sample.clock_90_7 Sample.behind_proxy
        = Some (Sample.proxied,
                setHeader "Content-Length" (fmt_d (Z.of_nat (String.length doc)))
                  (setHeader "Content-Type" "text/html; charset=utf-8"
                     Sample.behind_proxy),
                doc)
        /\ base_path Sample.bare = EmptyString
        /\ base_path Sample.proxied = "/proxy"%string).
Proof.
  split.
  - eexists _, _.
    split; [vm_compute; reflexivity|]. split; [vm_compute; reflexivity|].
    apply String.eqb_neq. vm_compute. reflexivity.
  - destruct (render_some (H := Sample.storage) Sample.bare Sample.clock_90_7
                Sample.behind_proxy) as [out Hout].
    + intros i. unfold datetime_wf, MAXORDINAL. cbn. lia.
    + repeat constructor; unfold datetime_wf, MAXORDINAL; cbn; lia.
    + repeat constructor; try (unfold datetime_wf, MAXORDINAL; cbn; lia).
      eexists. split; [reflexivity|]. unfold datetime_wf, MAXORDINAL. cbn. lia.
    + pose proof Hout as Hinv. apply render_inv in Hinv as (doc & _ & ->).
      exists doc. split; [exact Hout|]. split; reflexivity.
Qed.

(** ** The sample rows *)

Lemma sample_running_cells (self : Jobs) :
  running_cells (H := Sample.storage) self Sample.T_90_7 Sample.running_job
  = Some (Sample.running_dict_90_7 self).
Proof.
  unfold running_cells.
  rewrite datetime_trunc by (unfold datetime_wf, MAXORDINAL; cbn; lia).
  cbn [mbind option_bind].
  replace (datetime_sub Sample.T_90_7 (start_time Sample.running_job))
    with (Some (Timedelta 0 90 700000)) by (vm_compute; reflexivity).
  cbn [mbind option_bind].
  rewrite timedelta_trunc by (unfold timedelta_wf, MAXDAYS; cbn; lia).
  reflexivity.
Qed.

(** The theorem on the running row of the sample, behind the proxy. *)
Lemma log_and_items_cells_witness :
  Sample.running_dict_90_7 Sample.proxied !! "Log"%string
  = Some (PyStr (anchor ("/" +:+ "logs" +:+ "/proxy"
                         +:+ "/logs/default/quotes/run1.log") "Log"))
  /\ Sample.running_dict_90_7 Sample.proxied !! "Items"%string
     = Some (PyStr (anchor ("/proxy" +:+ "/items/default/quotes/run1.jl") "Items")).
Proof.
  destruct (log_and_items_cells (H := Sample.storage) Sample.proxied
              Sample.T_90_7 Sample.running_job
              (Sample.running_dict_90_7 Sample.proxied))
    as (Hlog & Hitems & _).
  - left. apply sample_running_cells.
  - split; [exact Hlog | exact Hitems].
Defined.

(** C5 does not hold of the code: behind the prefix /proxy the target of
    the Log link of the sample's running record is
    /logs/proxy/logs/default/quotes/run1.log.  It starts with the logs
    directory, so it is not the base path followed by any location, where
    the claim has /proxy/logs/default/quotes/run1.log.  In the same row
    the Items link and the cancel form start with the base path, and so
    does the Logs link of the home page for the same request.  The order
    is the same whatever the layout of the log and items locations. *)
Theorem log_link_base_path_misplaced :
  base_path Sample.proxied = "/proxy"%string
  /\ job_log_url (JobStorage := Sample.storage) "default" "quotes" "run1"
     = "/logs/default/quotes/run1.log"%string
  /\ running_cells (H := Sample.storage) Sample.proxied Sample.T_90_7
                   Sample.running_job
     = Some (Sample.running_dict_90_7 Sample.proxied)
  /\ Sample.running_dict_90_7 Sample.proxied !! "Log"%string
     = Some (PyStr (anchor "/logs/proxy/logs/default/quotes/run1.log" "Log"))
  /\ Sample.running_dict_90_7 Sample.proxied !! "Log"%string
     <> Some (PyStr (anchor "/proxy/logs/default/quotes/run1.log" "Log"))
  /\ (~ exists location,
         anchor "/logs/proxy/logs/default/quotes/run1.log" "Log"
         = anchor (base_path Sample.proxied +:+ location) "Log")
  /\ Sample.running_dict_90_7 Sample.proxied !! "Items"%string
     = Some (PyStr (anchor "/proxy/items/default/quotes/run1.jl" "Items"))
  /\ Sample.running_dict_90_7 Sample.proxied !! "Cancel"%string
     = Some (PyStr (nl +:+ lit "    <form method=`post` action=`/proxy/cancel.json`>"
                    +:+ nl +:+ lit "    <input type=`hidden` name=`project` value=`default`/>"
                    +:+ nl +:+ lit "    <input type=`hidden` name=`job` value=`run1`/>"
                    +:+ nl +:+ lit "    <input type=`submit` style=`float: left;` value=`Cancel`/>"
                    +:+ nl +:+ "    </form>" +:+ nl +:+ "    "))
  /\ (snd <$> render_GET {| home_root := root Sample.bare;
                            home_local_items := false;
                            home_prefix_header := prefix_header Sample.bare |}
                         [ "default"%string ] Sample.behind_proxy)
     = Some (home_page "default" "/proxy" "logs" false)
  /\ (exists before after,
        home_page "default" "/proxy" "logs" false
        = before +:+ lit "<li><a href=`/proxy/logs/`>Logs</a></li>" +:+ after)
  /\ forall layout : JobStorage,
       log_link (H := layout) Sample.proxied Sample.running_job
       = anchor ("/logs/proxy" +:+ job_log_url "default" "quotes" "run1") "Log"
       /\ log_link (H := layout) Sample.proxied Sample.running_job
          <> anchor ("/proxy" +:+ job_log_url "default" "quotes" "run1") "Log"
       /\ items_link (H := layout) Sample.proxied Sample.running_job
          = anchor ("/proxy" +:+ job_items_url "default" "quotes" "run1") "Items".
Proof.
  split; [reflexivity|]. split; [reflexivity|].
  split; [apply sample_running_cells|].
  split; [reflexivity|].
  split.
  { intros Heq. apply (f_equal (fun v => match v with
                                          | Some (PyStr t) => String.get 10 t
                                          | _ => None
                                          end)) in Heq.
    vm_compute in Heq. discriminate Heq. }
  split.
  { intros [location Heq].
    apply (f_equal (String.get 10)) in Heq. vm_compute in Heq. discriminate Heq. }
  split; [reflexivity|]. split; [vm_compute; reflexivity|].
  split; [vm_compute; reflexivity|].
  split.
  { exists (nl +:+ "<html>" +:+ nl +:+ "<head><title>Scrapyd</title></head>" +:+ nl
            +:+ "<body>" +:+ nl +:+ "<h1>Scrapyd</h1>" +:+ nl
            +:+ "<p>Available projects: <b>default</b></p>" +:+ nl
            +:+ "<ul>" +:+ nl +:+ lit "<li><a href=`/proxy/jobs`>Jobs</a></li>" +:+ nl
            +:+ nl)%string.
    eexists. vm_compute. reflexivity. }
  intros layout. split; [vm_compute; reflexivity|]. split; [|vm_compute; reflexivity].
  intros Heq. apply (f_equal (String.get 10)) in Heq.
  vm_compute in Heq. discriminate Heq.
Qed.

(** C6 as stated fails for running rows: without the cancel service the
    Cancel cell of the sample's running row still holds the cancel form. *)
Lemma running_cancel_cell_filled_without_cancel :
  cancel_available Sample.bare = false
  /\ running_cells (H := Sample.storage) Sample.bare Sample.T_90_7
                   Sample.running_job
     = Some (Sample.running_dict_90_7 Sample.bare)
  /\ exists cells,
       prep_row_cells (RowDict (Sample.running_dict_90_7 Sample.bare)) = Some cells
       /\ cell_of "Cancel" cells
          = Some (td (PyStr (cancel_button "" "default" "run1")))
       /\ cell_of "Cancel" cells <> Some blank.
Proof.
  split; [vm_compute; reflexivity|]. split; [apply sample_running_cells|].
  unfold Sample.running_dict_90_7.
  eexists. split; [apply running_row_cells|]. split; [reflexivity|].
  intros Hblank. apply (f_equal (default blank)) in Hblank.
  exact (cancel_cell_not_blank _ _ _ Hblank).
Qed.

(** Scenario B of the spec: one pending entry and the cancel service. *)
Example ex_scenario_b :
  pending_rows Sample.scenario_b
  = Some [ "<tr><td>default</td><td>quotes</td><td>abc123</td>"
           +:+ "<td></td><td></td><td></td><td></td><td></td><td></td>"
           +:+ "<td>" +:+ cancel_button "" "default" "abc123" +:+ "</td></tr>" ]
  /\ running_rows (H := Sample.storage) Sample.scenario_b Sample.clock_90_7 = Some []
  /\ finished_rows (H := Sample.storage) Sample.scenario_b = Some []
  /\ cancel_available Sample.scenario_b = true.
Proof. repeat split; vm_compute; reflexivity. Qed.

(** Scenario D of the spec: without local items the ninth column is
    hidden by the style sheet and the finished row keeps its Items link. *)
Example ex_scenario_d :
  gen_css Sample.bare
  = Some ("#jobs>thead td {text-align: center; font-weight: bold}" +:+ nl
          +:+ "#jobs>tbody>tr:first-child {background-color: #eee}" +:+ nl
          +:+ "#jobs>*>tr>*:nth-child(9) {display: none}" +:+ nl
          +:+ "#jobs>*>tr>*:nth-child(10) {display: none}")
  /\ (d ← finished_cells (H := Sample.storage) Sample.bare Sample.finished_job;
      cells ← prep_row_cells (RowDict d);
      cell_of "Items" cells)
     = Some ("<td>" +:+ anchor "/items/default/quotes/fin1.jl" "Items" +:+ "</td>")
  /\ gen_css Sample.full
     = Some ("#jobs>thead td {text-align: center; font-weight: bold}" +:+ nl
             +:+ "#jobs>tbody>tr:first-child {background-color: #eee}").
Proof. repeat split; vm_compute; reflexivity. Qed.

(** * Further properties of the code *)

(** ** Truncation and order *)

Lemma cmp3_le_iff (a1 a2 a3 b1 b2 b3 : Z) :
  0 <= a2 < 86400 -> 0 <= a3 < 1000000 ->
  0 <= b2 < 86400 -> 0 <= b3 < 1000000 ->
  le_of_cmp (cmp3 (a1, a2, a3) (b1, b2, b3)) = true
  <-> (a1 * 86400 + a2) * 1000000 + a3 <= (b1 * 86400 + b2) * 1000000 + b3.
Proof.
  intros Ha2 Ha3 Hb2 Hb3. unfold cmp3.
  destruct (Z.compare_spec a1 b1) as [->|H1|H1];
    [destruct (Z.compare_spec a2 b2) as [->|H2|H2];
       [destruct (Z.compare_spec a3 b3) as [->|H3|H3]|..]|..];
    cbn; split; intros Hle; try reflexivity; try discriminate; nia.
Qed.

Lemma timelike_le_iff (x y : timelike) :
  timelike_wf x -> timelike_wf y ->
  timelike_le x y = Some true
  <-> ((exists a b, x = Moment a /\ y = Moment b)
       \/ (exists a b, x = Duration a /\ y = Duration b))
      /\ timelike_us x <= timelike_us y.
Proof.
  intros Hx Hy. destruct x as [a|a], y as [b|b]; cbn in Hx, Hy |- *.
  - destruct Hx as (_ & Hx2 & Hx3), Hy as (_ & Hy2 & Hy3).
    pose proof (cmp3_le_iff (toordinal a) _ _ (toordinal b) _ _ Hx2 Hx3 Hy2 Hy3)
      as Hiff.
    split.
    + intros [= Hle]. split; [left; eauto | apply Hiff; exact Hle].
    + intros [_ Hle]. f_equal. apply Hiff. exact Hle.
  - split; [discriminate|]. intros [[(a' & b' & _ & [=])|(a' & b' & [=] & _)] _].
  - split; [discriminate|]. intros [[(a' & b' & [=] & _)|(a' & b' & _ & [=])] _].
  - destruct Hx as (_ & Hx2 & Hx3), Hy as (_ & Hy2 & Hy3).
    pose proof (cmp3_le_iff (days a) _ _ (days b) _ _ Hx2 Hx3 Hy2 Hy3) as Hiff.
    split.
    + intros [= Hle]. split; [right; eauto | apply Hiff; exact Hle].
    + intros [_ Hle]. f_equal. apply Hiff. exact Hle.
Qed.

Lemma microsec_trunc_wf (x : timelike) :
  timelike_wf x ->
  exists x',
    microsec_trunc x = Some x'
    /\ timelike_wf x'
    /\ timelike_us x' = 1000000 * (timelike_us x / 1000000)
    /\ ((exists a a', x = Moment a /\ x' = Moment a')
        \/ (exists a a', x = Duration a /\ x' = Duration a')).
Proof.
  intros Hwf. destruct x as [d|t]; cbn in Hwf.
  - exists (Moment (on_the_second d)). rewrite datetime_trunc by assumption.
    destruct Hwf as (Hd & Hs & Hus).
    split; [reflexivity|]. split; [unfold on_the_second; cbn; unfold datetime_wf; cbn; lia|].
    split; [|left; eauto].
    cbn. unfold datetime_us. cbn. Z.div_mod_to_equations. lia.
  - exists (Duration (whole_seconds t)). rewrite timedelta_trunc by assumption.
    destruct (whole_seconds_floor t Hwf) as (Hwf' & _ & Hfloor).
    split; [reflexivity|]. split; [exact Hwf'|]. split; [exact Hfloor|right; eauto].
Qed.

(** X1: [microsec_trunc] keeps the order: of two datetimes, or of two
    durations, with [x <= y], the truncated values compare the same way,
    so truncation never swaps two rows of a table sorted by time. *)
Theorem microsec_trunc_monotone (x y : timelike) :
  timelike_wf x -> timelike_wf y ->
  timelike_le x y = Some true ->
  exists x' y',
    microsec_trunc x = Some x'
    /\ microsec_trunc y = Some y'
    /\ timelike_le x' y' = Some true.
Proof.
  intros Hx Hy Hle.
  destruct (microsec_trunc_wf x Hx) as (x' & Hx' & Hwx & Hux & Hkx).
  destruct (microsec_trunc_wf y Hy) as (y' & Hy' & Hwy & Huy & Hky).
  exists x', y'. split; [exact Hx'|]. split; [exact Hy'|].
  apply timelike_le_iff in Hle as [Hkind Hle]; [|assumption..].
  apply timelike_le_iff; [assumption..|]. split.
  - destruct Hkind as [(a & b & -> & ->)|(a & b & -> & ->)].
    + destruct Hkx as [(? & a' & _ & ->)|(? & ? & [=] & _)].
      destruct Hky as [(? & b' & _ & ->)|(? & ? & [=] & _)]. left. eauto.
    + destruct Hkx as [(? & ? & [=] & _)|(? & a' & _ & ->)].
      destruct Hky as [(? & ? & [=] & _)|(? & b' & _ & ->)]. right. eauto.
  - rewrite Hux, Huy. Z.div_mod_to_equations. lia.
Qed.

Lemma microsec_trunc_monotone_witness :
  exists x' y',
    microsec_trunc (Moment Sample.T) = Some x'
    /\ microsec_trunc (Moment Sample.T_90_7) = Some y'
    /\ timelike_le x' y' = Some true.
Proof.
  apply (microsec_trunc_monotone (Moment Sample.T) (Moment Sample.T_90_7)).
  - cbn. unfold datetime_wf, MAXORDINAL. cbn. lia.
  - cbn. unfold datetime_wf, MAXORDINAL. cbn. lia.
  - reflexivity.
Defined.

(** X2: the values that [microsec_trunc] gives back unchanged are exactly
    those without a sub-second part. *)
Theorem microsec_trunc_fixed_points (x : timelike) :
  timelike_wf x ->
  (microsec_trunc x = Some x <-> subsecond x = 0).
Proof.
  intros Hwf. destruct x as [d|t]; cbn in Hwf.
  - rewrite datetime_trunc by assumption. destruct d as [o s us]. cbn. split.
    + intros [= Hus]. lia.
    + intros ->. reflexivity.
  - rewrite timedelta_trunc by assumption. destruct t as [d s us]. cbn. split.
    + intros [= Hus]. lia.
    + intros ->. reflexivity.
Qed.

Lemma microsec_trunc_fixed_points_witness :
  microsec_trunc (Duration (Timedelta 0 90 0)) = Some (Duration (Timedelta 0 90 0))
  <-> subsecond (Duration (Timedelta 0 90 0)) = 0.
Proof.
  apply (microsec_trunc_fixed_points (Duration (Timedelta 0 90 0))).
  cbn. unfold timedelta_wf, MAXDAYS. cbn. lia.
Defined.

(** ** The three times of a finished row *)

Section FinishedTimes.
Context `{JobStorage}.

(** X3: in the row of a finished record the Finish shown minus the Start
    shown is the Runtime shown, or one second more; it is one second more
    exactly when the microsecond of the end time is smaller than the
    microsecond of the start time. *)
Theorem finished_row_times_differ_by_at_most_a_second
    (self : Jobs) (p : process) (ended : datetime) :
  end_time p = Some ended ->
  datetime_wf ended -> datetime_wf (start_time p) ->
  exists d start finish runtime,
    finished_cells self p = Some d
    /\ d !! "Start"%string = Some (PyDatetime start)
    /\ d !! "Finish"%string = Some (PyDatetime finish)
    /\ d !! "Runtime"%string = Some (PyTimedelta runtime)
    /\ datetime_us finish - datetime_us start - timedelta_us runtime
       = if microsecond ended <? microsecond (start_time p) then 1000000 else 0.
Proof.
  intros Hend Hended Hstart.
  destruct (finished_cells_some self p ended Hend Hended Hstart)
    as (elapsed & _ & Hwf & Hus & Hcells).
  destruct (whole_seconds_floor elapsed Hwf) as (_ & _ & Hfloor).
  exists (finished_dict self p (Moment (on_the_second (start_time p)))
            (Duration (whole_seconds elapsed)) (Moment (on_the_second ended))),
         (on_the_second (start_time p)), (on_the_second ended),
         (whole_seconds elapsed).
  split; [exact Hcells|]. do 3 (split; [reflexivity|]).
  rewrite Hfloor, Hus.
  destruct Hended as (_ & _ & Hue), Hstart as (_ & _ & Hup).
  unfold datetime_us, on_the_second. cbn [toordinal daysecond microsecond].
  destruct (Z.ltb_spec (microsecond ended) (microsecond (start_time p)));
    Z.div_mod_to_equations; lia.
Qed.

End FinishedTimes.

(** The theorem on the sample's finished record, whose end time has the
    smaller microsecond: 08:21:30 - 08:19:59 is 91 s, the Runtime is 90 s. *)
Lemma finished_row_times_witness :
  exists d start finish runtime,
    finished_cells (H := Sample.storage) Sample.bare Sample.finished_job = Some d
    /\ d !! "Start"%string = Some (PyDatetime start)
    /\ d !! "Finish"%string = Some (PyDatetime finish)
    /\ d !! "Runtime"%string = Some (PyTimedelta runtime)
    /\ datetime_us finish - datetime_us start - timedelta_us runtime = 1000000.
Proof.
  apply (finished_row_times_differ_by_at_most_a_second (H := Sample.storage)
           Sample.bare Sample.finished_job (Datetime 738900 30090 700000)).
  - reflexivity.
  - unfold datetime_wf, MAXORDINAL. cbn. lia.
  - unfold datetime_wf, MAXORDINAL. cbn. lia.
Defined.

(** ** [prep_row] on sequences and dicts *)

Lemma prep_row_some_iff (cells : row) :
  is_Some (prep_row cells) <-> is_Some (row_values cells).
Proof.
  unfold prep_row, prep_row_cells.
  destruct (row_values cells) as [l|]; cbn; split; intros [x Hx];
    first [discriminate | now eexists].
Qed.

(** X4: a sequence is accepted by [prep_row] exactly when it has ten
    cells (any other length fails the assertion), and a dict is always
    accepted, whatever its keys. *)
Theorem prep_row_accepts (l : list pyval) (d : gmap string pyval) :
  (prep_row (RowList l) = None <-> length l <> 10%nat)
  /\ (is_Some (prep_row (RowList l)) <-> length l = 10%nat)
  /\ is_Some (prep_row (RowDict d)).
Proof.
  assert (Hlist : is_Some (prep_row (RowList l)) <-> length l = 10%nat).
  { rewrite prep_row_some_iff. unfold row_values.
    change (length header_cols) with 10%nat.
    case_decide as Hlen; split.
    - intros _. exact Hlen.
    - intros _. now exists l.
    - intros [x Hx]. discriminate Hx.
    - intros Hx. contradiction. }
  split; [|split; [exact Hlist|]].
  - rewrite eq_None_not_Some. now rewrite Hlist.
  - apply prep_row_some_iff. now eexists.
Qed.

(** X5: [prep_row] reads a dict through the ten column names only: adding,
    overwriting or removing any other key leaves the row as it was. *)
Theorem prep_row_ignores_other_keys
    (d : gmap string pyval) (k : string) (v : pyval) :
  k ∉ header_cols ->
  prep_row (RowDict (<[k := v]> d)) = prep_row (RowDict d)
  /\ prep_row (RowDict (delete k d)) = prep_row (RowDict d).
Proof.
  intros Hk.
  assert (Hne : Forall (fun c => k <> c) header_cols).
  { apply Forall_forall. intros c Hc ->. contradiction. }
  assert (Hins : prep_row_cells (RowDict (<[k := v]> d)) = prep_row_cells (RowDict d)).
  { rewrite !prep_row_cells_dict. f_equal. apply Forall_fmap_ext.
    eapply Forall_impl; [exact Hne|]. intros c Hc. cbn beta.
    now rewrite lookup_insert_ne. }
  assert (Hdel : prep_row_cells (RowDict (delete k d)) = prep_row_cells (RowDict d)).
  { rewrite !prep_row_cells_dict. f_equal. apply Forall_fmap_ext.
    eapply Forall_impl; [exact Hne|]. intros c Hc. cbn beta.
    now rewrite lookup_delete_ne. }
  unfold prep_row. now rewrite Hins, Hdel.
Qed.

Lemma prep_row_ignores_other_keys_witness :
  prep_row (RowDict (<["Node"%string := PyStr "n1"]> {[ "Job"%string := PyStr "j" ]}))
  = prep_row (RowDict {[ "Job"%string := PyStr "j" ]})
  /\ prep_row (RowDict (delete "Node"%string {[ "Job"%string := PyStr "j" ]}))
     = prep_row (RowDict {[ "Job"%string := PyStr "j" ]}).
Proof.
  apply (prep_row_ignores_other_keys {[ "Job"%string := PyStr "j" ]} "Node" (PyStr "n1")).
  apply (bool_decide_unpack _). vm_compute. exact I.
Defined.

(** X6: a sequence of ten cells gives the same row as the dict that maps
    the ten column names, in order, to those cells. *)
Theorem prep_row_sequence_as_dict (l : list pyval) :
  length l = 10%nat ->
  prep_row (RowList l) = prep_row (RowDict (list_to_map (zip header_cols l))).
Proof.
  intros Hlen.
  do 10 (destruct l as [|? l]; [discriminate|]).
  destruct l; [|discriminate]. reflexivity.
Qed.

Lemma prep_row_sequence_as_dict_witness :
  prep_row (RowList (PyStr <$> header_cols))
  = prep_row (RowDict (list_to_map (zip header_cols (PyStr <$> header_cols)))).
Proof. apply prep_row_sequence_as_dict. reflexivity. Defined.

(** ** The three sections, row by row *)

Lemma prep_row_pending (self : Jobs) (project : string) (m : message) :
  prep_row (RowDict (pending_cells self project m))
  = Some (pending_row (base_path self) project (m_name m) (m_job m)).
Proof.
  unfold prep_row. rewrite pending_row_cells. cbn [fmap option_fmap option_map].
  f_equal. unfold pending_row, join, td, blank. cbn [String.concat py_str].
  rewrite !append_assoc. reflexivity.
Qed.

Lemma queue_bind (project : string) (queue : list message) :
  (m ← queue; [(project, m)]) = pair project <$> queue.
Proof. induction queue as [|m queue IH]; [reflexivity|]. cbn. now rewrite IH. Qed.

(** X7: the Pending section never fails and lists the queues in the order
    of the poller's dict, each queue in its own order: one row for every
    message, none for a project whose queue is empty, every row with the
    project, the spider, the job id, six empty cells and the cancel form. *)
Theorem pending_rows_in_queue_order (self : Jobs) :
  pending_jobs self
  = concat ((fun pq : string * list message => pair pq.1 <$> pq.2)
              <$> queues (poller (root self)))
  /\ length (pending_jobs self)
     = sum_list ((fun pq : string * list message => length pq.2)
                   <$> queues (poller (root self)))
  /\ pending_rows self
     = Some ((fun pm : string * message =>
                pending_row (base_path self) pm.1 (m_name pm.2) (m_job pm.2))
               <$> pending_jobs self).
Proof.
  split; [|split].
  - unfold pending_jobs.
    induction (queues (poller (root self))) as [|[project queue] rest IH];
      [reflexivity|].
    cbn. now rewrite queue_bind, <- IH.
  - unfold pending_jobs.
    induction (queues (poller (root self))) as [|[project queue] rest IH];
      [reflexivity|].
    cbn. rewrite queue_bind, length_app, length_fmap. now rewrite <- IH.
  - unfold pending_rows. apply mapM_Some_2.
    induction (pending_jobs self) as [|[project m] l IH]; constructor;
      [apply prep_row_pending | exact IH].
Qed.

Example ex_pending_order :
  pending_jobs
    {| root := Sample.site ∅ [ ("a", [Message "s1" "j1"; Message "s2" "j2"]);
                               ("b", []);
                               ("c", [Message "s3" "j3"]) ]%string [] [];
       local_items := false; prefix_header := ""; base_path := "" |}
  = [ ("a", Message "s1" "j1"); ("a", Message "s2" "j2");
      ("c", Message "s3" "j3") ]%string.
Proof. reflexivity. Qed.

Section RowsInOrder.
Context `{JobStorage}.

(** X8: the Running and the Finished section keep the order of the
    launcher: the row at position [i] is the row of the record at
    position [i], a running one with the clock reading taken for that
    position. *)
Theorem rows_follow_the_launcher (self : Jobs) (clock : Clock) :
  records_wf self clock ->
  exists run fin,
    running_rows self clock = Some run
    /\ finished_rows self = Some fin
    /\ (forall i p,
          processes (launcher (root self)) !! i = Some p ->
          exists d r, running_cells self (clock i) p = Some d
                      /\ prep_row (RowDict d) = Some r
                      /\ run !! i = Some r)
    /\ (forall i p,
          finished (launcher (root self)) !! i = Some p ->
          exists d r, finished_cells self p = Some d
                      /\ prep_row (RowDict d) = Some r
                      /\ fin !! i = Some r).
Proof.
  intros Hwf.
  destruct (running_rows_some self clock Hwf) as [run Hr].
  destruct (finished_rows_some self clock Hwf) as [fin Hf].
  exists run, fin. split; [exact Hr|]. split; [exact Hf|]. split.
  - intros i p Hp. unfold running_rows in Hr. apply mapM_Some_1 in Hr.
    assert (Hip : imap pair (processes (launcher (root self))) !! i = Some (i, p))
      by (rewrite list_lookup_imap, Hp; reflexivity).
    destruct (Forall2_lookup_l _ _ _ _ _ Hr Hip) as (r & Hri & Hrow).
    cbn beta iota in Hrow.
    destruct (running_cells self (clock i) p) as [d|]; [|discriminate].
    exists d, r. split; [reflexivity|]. split; [exact Hrow | exact Hri].
  - intros i p Hp. unfold finished_rows in Hf. apply mapM_Some_1 in Hf.
    destruct (Forall2_lookup_l _ _ _ _ _ Hf Hp) as (r & Hri & Hrow).
    cbn beta in Hrow.
    destruct (finished_cells self p) as [d|]; [|discriminate].
    exists d, r. split; [reflexivity|]. split; [exact Hrow | exact Hri].
Qed.

End RowsInOrder.

(** The theorem on the sample deployment. *)
Lemma rows_follow_the_launcher_witness :
  exists run fin,
    running_rows (H := Sample.storage) Sample.bare Sample.clock_90_7 = Some run
    /\ finished_rows (H := Sample.storage) Sample.bare = Some fin
    /\ (exists d r,
          running_cells (H := Sample.storage) Sample.bare Sample.T_90_7
                        Sample.running_job = Some d
          /\ prep_row (RowDict d) = Some r
          /\ run !! 0%nat = Some r).
Proof.
  destruct (rows_follow_the_launcher (H := Sample.storage)
              Sample.bare Sample.clock_90_7)
    as (run & fin & Hr & Hf & Hrun & _).
  - apply (sample_records_wf _ Sample.T_90_7); [|reflexivity].
    unfold datetime_wf, MAXORDINAL. cbn. lia.
  - exists run, fin. split; [exact Hr|]. split; [exact Hf|].
    apply (Hrun 0%nat Sample.running_job). reflexivity.
Defined.

(** ** Failures and what a render depends on *)

Section RenderMore.
Context `{JobStorage}.

Lemma finished_cells_without_end (self : Jobs) (p : process) :
  end_time p = None -> finished_cells self p = None.
Proof.
  intros Hend. unfold finished_cells. rewrite Hend.
  now destruct (microsec_trunc (Moment (start_time p))).
Qed.

Lemma prep_doc_without_end (self : Jobs) (clock : Clock) (p : process) :
  p ∈ finished (launcher (root self)) -> end_time p = None ->
  prep_doc self clock = None.
Proof.
  intros Hin Hend.
  assert (Hf : prep_tab_finished self = None).
  { unfold prep_tab_finished, finished_rows.
    rewrite (mapM_None_2 _ (finished (launcher (root self)))); [reflexivity|].
    apply Exists_exists. exists p. split; [exact Hin|].
    now rewrite finished_cells_without_end. }
  unfold prep_doc, prep_table. rewrite Hf.
  destruct (gen_css self); [|reflexivity]. cbn [mbind option_bind].
  destruct (prep_row _); [|reflexivity]. cbn [mbind option_bind].
  destruct (prep_tab_pending self); [|reflexivity]. cbn [mbind option_bind].
  destruct (prep_tab_running self clock); reflexivity.
Qed.

(** X9: one finished record without an end time makes the whole render
    fail: no document is returned, not even the rows of the other jobs. *)
Theorem finished_without_end_time_fails
    (self : Jobs) (clock : Clock) (txrequest : Request) (p : process) :
  p ∈ finished (launcher (root self)) -> end_time p = None ->
  render self clock txrequest = None.
Proof.
  intros Hin Hend. unfold render.
  now rewrite (prep_doc_without_end
                 {| root := root self; local_items := local_items self;
                    prefix_header := prefix_header self;
                    base_path := get_base_path self txrequest |}
                 clock p Hin Hend).
Qed.

(** X10: while nothing is running the clock is not read: two renders of
    the same resource and request agree whatever the time. *)
Theorem idle_render_ignores_the_clock
    (self : Jobs) (c1 c2 : Clock) (txrequest : Request) :
  processes (launcher (root self)) = [] ->
  render self c1 txrequest = render self c2 txrequest.
Proof.
  intros Hidle. unfold render.
  match goal with
  | |- context [prep_doc ?j c1] =>
      rewrite (prep_doc_ext j j c1 c2); try reflexivity
  end.
  cbn [root]. rewrite Hidle. cbn. lia.
Qed.

(** X11: the base path that a render stores on the resource does not
    reach the next render: after a request through one prefix, a request
    through another gives what it would have given on the resource as it
    was before. *)
Theorem stored_base_path_does_not_leak
    (self self1 : Jobs) (c1 c2 : Clock) (r1 r1' r2 : Request) (doc1 : string) :
  render self c1 r1 = Some (self1, r1', doc1) ->
  render self1 c2 r2 = render self c2 r2.
Proof.
  intros Hout. apply render_inv in Hout as (doc & _ & [= -> _ _]).
  reflexivity.
Qed.

End RenderMore.

Lemma finished_without_end_time_fails_witness :
  render (H := Sample.storage)
         {| root := Sample.site ∅ [] [] [Sample.finished_job; Sample.running_job];
            local_items := true; prefix_header := EmptyString;
            base_path := EmptyString |}
         Sample.clock_90_7 Sample.direct
  = None.
Proof.
  apply (finished_without_end_time_fails (H := Sample.storage) _ _ _
           Sample.running_job).
  - cbn. constructor 2. constructor 1.
  - reflexivity.
Defined.

Lemma idle_render_ignores_the_clock_witness :
  render (H := Sample.storage) Sample.scenario_b Sample.clock_90_7 Sample.direct
  = render (H := Sample.storage) Sample.scenario_b Sample.clock_91_7 Sample.direct.
Proof. apply idle_render_ignores_the_clock. reflexivity. Defined.

Lemma stored_base_path_does_not_leak_witness :
  render (H := Sample.storage) Sample.proxied Sample.clock_90_7 Sample.direct
  = render (H := Sample.storage) Sample.bare Sample.clock_90_7 Sample.direct.
Proof.
  destruct (render_some (H := Sample.storage) Sample.bare Sample.clock_90_7
              Sample.behind_proxy) as [[[self1 r1'] doc1] Hout].
  - intros i. unfold datetime_wf, MAXORDINAL. cbn. lia.
  - repeat constructor; unfold datetime_wf, MAXORDINAL; cbn; lia.
  - repeat constructor; try (unfold datetime_wf, MAXORDINAL; cbn; lia).
    eexists. split; [reflexivity|]. unfold datetime_wf, MAXORDINAL. cbn. lia.
  - pose proof Hout as Hinv. apply render_inv in Hinv as (doc & _ & [= -> _ _]).
    exact (stored_base_path_does_not_leak (H := Sample.storage)
             Sample.bare _ Sample.clock_90_7 Sample.clock_90_7
             Sample.behind_proxy _ Sample.direct _ Hout).
Defined.

(** ** The base path *)






(** The prefix header is found under any spelling of its name, and the
    last of several values counts. *)
Example ex_prefix_header_any_case :
  get_base_path Sample.bare
    {| requestHeaders := [ ("x-forwarded-prefix", "/proxy") ]%string;
       responseHeaders := ∅ |} = "/proxy"%string
  /\ get_base_path Sample.bare
       {| requestHeaders := [ ("X-FORWARDED-PREFIX", "/a");
                              ("Accept", "text/html");
                              ("x-forwarded-prefix", "/b") ]%string;
          responseHeaders := ∅ |} = "/b"%string
  /\ get_base_path Sample.bare
       {| requestHeaders := [ ("X-Forwarded-Prefix"%string, EmptyString) ];
          responseHeaders := ∅ |} = EmptyString
  /\ get_base_path Sample.bare Sample.direct = EmptyString.
Proof. repeat split; vm_compute; reflexivity. Qed.

(** ** The home page *)



Example ex_home_directive_in_a_name :
  snd <$> render_GET {| home_root := root Sample.bare;
                        home_local_items := false;
                        home_prefix_header := "X-Forwarded-Prefix" |}
                     [ "100%"; "%(base_path)s" ]%string Sample.behind_proxy
  = Some (home_page "100%, %(base_path)s" "/proxy" "logs" false).
Proof. vm_compute. reflexivity. Qed.

Example ex_percent_format_errors :
  percent_format "%(missing)s" ∅ = None
  /\ percent_format "100%" ∅ = None
  /\ percent_format "100%%" ∅ = Some "100%"%string
  /\ percent_format "%(a(b))s" {[ "a(b)"%string := "x"%string ]} = Some "x"%string.
Proof. repeat split; vm_compute; reflexivity. Qed.

(** ** The checker *)

Section Checker.
Import BasicAuth.

(** X14: a checker configured with the strings [u] and [p] lets a login
    with the strings [u'] and [p'] through exactly when [u' = u] and
    [p' = p]; in particular the configured pair itself always logs in,
    with the encoded user name as identity. *)
Theorem init_then_login (u p u' p' : string) :
  let presented :=
    {| cred_username := String.list_byte_of_string u';
       cred_password := String.list_byte_of_string p' |} in
  ((exists identity,
      snd (requestAvatarId (init u p) presented) = succeed identity)
   <-> u' = u /\ p' = p)
  /\ snd (requestAvatarId (init u p)
            {| cred_username := String.list_byte_of_string u;
               cred_password := String.list_byte_of_string p |})
     = succeed (String.list_byte_of_string u).
Proof.
  intros presented.
  assert (Hinj : forall a b : string,
             String.list_byte_of_string a = String.list_byte_of_string b -> a = b).
  { intros a b Hab. apply (f_equal String.string_of_list_byte) in Hab.
    now rewrite !String.string_of_list_byte_of_string in Hab. }
  rewrite !requestAvatarId_result. unfold presented, init. cbn. split.
  - case_decide as Heq.
    + split; [|intros _; now eexists].
      intros _. destruct Heq as [Hu Hp]. split; now apply Hinj.
    + split; [intros [identity [=]]|].
      intros [-> ->]. tauto.
  - case_decide as Heq; [reflexivity|tauto].
Qed.

End Checker.

(** ** [Root.__init__] *)

Lemma encode_ascii_ignore_ascii (s : string) :
  Forall (fun c => (N_of_ascii c < 128)%N) (list_ascii_of_string s) ->
  encode_ascii_ignore s = s.
Proof.
  induction s as [|c s IH]; [reflexivity|]. cbn. intros Hall.
  apply Forall_cons in Hall as [Hc Hs].
  destruct (N.ltb_spec (N_of_ascii c) 128) as [_|Hge]; [|lia].
  now rewrite IH.
Qed.

Lemma encode_ascii_ignore_is_ascii (s : string) :
  Forall (fun c => (N_of_ascii c < 128)%N)
         (list_ascii_of_string (encode_ascii_ignore s)).
Proof.
  induction s as [|c s IH]; [constructor|]. cbn.
  destruct (N.ltb_spec (N_of_ascii c) 128) as [Hlt|_]; [|exact IH].
  cbn. now constructor.
Qed.

Lemma put_services_app (l1 l2 : list (string * string))
    (children : gmap string child) :
  put_services (l1 ++ l2) children = put_services l2 (put_services l1 children).
Proof. unfold put_services. apply foldl_app. Qed.

Lemma put_services_lookup_other (services : list (string * string))
    (children : gmap string child) (name : string) :
  name ∉ services.*1 ->
  put_services services children !! name = children !! name.
Proof.
  revert children. induction services as [|[n cls] services IH];
    intros children Hname; [reflexivity|].
  cbn in Hname. apply not_elem_of_cons in Hname as [Hne Hrest].
  change (put_services ((n, cls) :: services) children)
    with (put_services services (putChild n (ServiceResource cls) children)).
  rewrite IH by assumption. unfold putChild. now rewrite lookup_insert_ne.
Qed.

Lemma put_services_lookup_last (before after : list (string * string))
    (children : gmap string child) (name cls : string) :
  name ∉ after.*1 ->
  put_services (before ++ (name, cls) :: after) children !! name
  = Some (ServiceResource cls).
Proof.
  intros Hafter. rewrite put_services_app.
  change (put_services ((name, cls) :: after) ?c)
    with (put_services after (putChild name (ServiceResource cls) c)).
  rewrite put_services_lookup_other by assumption.
  unfold putChild. now rewrite lookup_insert_eq.
Qed.

Lemma put_services_dom (services : list (string * string))
    (children : gmap string child) (name : string) :
  name ∈ dom (put_services services children)
  <-> name ∈ services.*1 \/ name ∈ dom children.
Proof.
  revert children. induction services as [|[n cls] services IH]; intros children.
  - cbn. rewrite elem_of_nil. tauto.
  - change (put_services ((n, cls) :: services) children)
      with (put_services services (putChild n (ServiceResource cls) children)).
    rewrite IH. unfold putChild. rewrite dom_insert, elem_of_union,
      elem_of_singleton. cbn. rewrite elem_of_cons. tauto.
Qed.

Section RootProperties.
Variable scheme_lower : string -> string.

Lemma local_items_of_true (itemsdir : option string) :
  local_items_of scheme_lower itemsdir = true
  <-> exists d, itemsdir = Some d /\ d <> EmptyString
                /\ (scheme_lower d = EmptyString \/ scheme_lower d = "file"%string).
Proof.
  unfold local_items_of. destruct itemsdir as [d|].
  - destruct (String.eqb_spec d EmptyString) as [->|Hd].
    + split; [discriminate|]. intros (d & [= <-] & Hd & _). contradiction.
    + rewrite orb_true_iff, !String.eqb_eq. split.
      * intros Hs. exists d. tauto.
      * intros (d' & [= <-] & _ & Hs). exact Hs.
  - split; [discriminate|]. intros (d & [=] & _).
Qed.

Lemma builtin_children_dom (logsdir : string) (itemsdir : option string)
    (name : string) :
  name ∈ dom (builtin_children scheme_lower logsdir itemsdir)
  <-> name = encode_ascii_ignore logsdir \/ name = EmptyString
      \/ name = "jobs"%string
      \/ (name = "items"%string /\ local_items_of scheme_lower itemsdir = true).
Proof.
  unfold builtin_children, putChild.
  destruct itemsdir as [d|]; [destruct (local_items_of scheme_lower (Some d))|];
    rewrite ?dom_insert, ?dom_empty, ?elem_of_union, ?elem_of_singleton,
      elem_of_empty; cbn; intuition (try discriminate; auto).
Qed.

(** X16: [Root.__init__] never leaves the logs directory unnamed: a
    missing or empty [logs_dir] gives logs, any other value is kept as it
    is.  The directory is mounted under that name without its non-ASCII
    characters (the name itself when it is ASCII), and it is still there
    at the end unless the home page (the empty name), the job table, the
    items directory or a service took the same name after it. *)
Theorem Root_init_logs_directory
    (config : Config) (app_poller : Poller) (app_launcher : Launcher) :
  let r := Root_init scheme_lower config app_poller app_launcher in
  let name := encode_ascii_ignore (ro_logsdir r) in
  ro_logsdir r <> EmptyString
  /\ (cfg_logs_dir config = None \/ cfg_logs_dir config = Some EmptyString ->
      ro_logsdir r = "logs"%string)
  /\ (forall d, cfg_logs_dir config = Some d -> d <> EmptyString ->
                ro_logsdir r = d)
  /\ (Forall (fun c => (N_of_ascii c < 128)%N) (list_ascii_of_string (ro_logsdir r)) ->
      name = ro_logsdir r)
  /\ (name <> EmptyString -> name <> "jobs"%string ->
      (name = "items"%string -> ro_local_items r = false) ->
      name ∉ (cfg_services config).*1 ->
      ro_children r !! name = Some (StaticFile name)).
Proof.
  intros r name.
  assert (Hdir : ro_logsdir r <> EmptyString
                 /\ (cfg_logs_dir config = None
                     \/ cfg_logs_dir config = Some EmptyString ->
                     ro_logsdir r = "logs"%string)
                 /\ (forall d, cfg_logs_dir config = Some d -> d <> EmptyString ->
                               ro_logsdir r = d)).
  { unfold r, Root_init. cbn [ro_logsdir].
    destruct (cfg_logs_dir config) as [d|].
    - destruct (String.eqb_spec d EmptyString) as [->|Hd].
      + split; [discriminate|]. split; [reflexivity|].
        intros d' [= <-] Hd'. contradiction.
      + split; [exact Hd|]. split; [intros [[=]|[= ->]]; contradiction|].
        intros d' [= <-] _. reflexivity.
    - split; [discriminate|]. split; [reflexivity|]. intros d' [=]. }
  destruct Hdir as (Hne & Hdefault & Hkept).
  split; [exact Hne|]. split; [exact Hdefault|]. split; [exact Hkept|].
  split; [apply encode_ascii_ignore_ascii|].
  intros Hhome Hjobs Hitems Hservices.
  change (ro_children r)
    with (put_services (cfg_services config)
            (builtin_children scheme_lower (ro_logsdir r) (cfg_items_dir config))).
  rewrite put_services_lookup_other by assumption.
  unfold builtin_children, putChild. fold name.
  rewrite lookup_insert_ne by (intros Heq; apply Hjobs; now rewrite Heq).
  assert (Hhere : <[EmptyString := HomeResource (local_items_of scheme_lower (cfg_items_dir config))]>
                    (<[name := StaticFile name]> (∅ : gmap string child)) !! name
                  = Some (StaticFile name)).
  { rewrite lookup_insert_ne by (intros Heq; apply Hhome; now rewrite Heq).
    apply lookup_insert_eq. }
  change (ro_local_items r)
    with (local_items_of scheme_lower (cfg_items_dir config)) in Hitems.
  destruct (cfg_items_dir config) as [d|]; [|exact Hhere].
  destruct (local_items_of scheme_lower (Some d)) eqn:Hlocal; [|exact Hhere].
  rewrite lookup_insert_ne; [exact Hhere|].
  intros Heq. symmetry in Heq. specialize (Hitems Heq). discriminate.
Qed.

Example ex_logs_directory_names :
  encode_ascii_ignore "logs" = "logs"%string
  /\ encode_ascii_ignore "logé" = "log"%string
  /\ (let r := Root_init (fun _ => EmptyString)
                 {| cfg_debug := false; cfg_runner := EmptyString;
                    cfg_prefix_header := EmptyString;
                    cfg_logs_dir := Some "é"%string; cfg_items_dir := None;
                    cfg_node_name := EmptyString; cfg_services := [] |}
                 {| queues := [] |} {| processes := []; finished := [] |} in
      ro_children r !! EmptyString = Some (HomeResource false)
      /\ dom (ro_children r) = {[ EmptyString; "jobs"%string ]}).
Proof. repeat split; vm_compute; reflexivity. Qed.

(** X17: the flags of the two pages follow from what [Root.__init__]
    mounts.  The Cancel column of the job table is shown exactly when a
    service is configured under the name cancel.json (or the logs
    directory is mounted under that name); the Items column and the Items
    link of the home page are there exactly when [items_dir] is a
    non-empty location whose scheme is empty or file. *)
Theorem Root_init_sets_the_flags
    (config : Config) (app_poller : Poller) (app_launcher : Launcher) :
  let r := Root_init scheme_lower config app_poller app_launcher in
  (cancel_available (Jobs_init r) = true
   <-> "cancel.json"%string ∈ (cfg_services config).*1
       \/ encode_ascii_ignore (ro_logsdir r) = "cancel.json"%string)
  /\ (items_browsable (Jobs_init r) = true
      <-> exists d, cfg_items_dir config = Some d /\ d <> EmptyString
                    /\ (scheme_lower d = EmptyString
                        \/ scheme_lower d = "file"%string))
  /\ home_local_items (Home_init r) = items_browsable (Jobs_init r).
Proof.
  intros r. split; [|split; [|reflexivity]].
  - unfold cancel_available. rewrite bool_decide_eq_true.
    unfold Jobs_init, root_of. cbn [root children].
    unfold r, Root_init. cbn [ro_children ro_logsdir].
    rewrite put_services_dom, builtin_children_dom.
    intuition (try discriminate; auto).
  - unfold items_browsable, Jobs_init. cbn [local_items].
    unfold r, Root_init. cbn [ro_local_items].
    apply local_items_of_true.
Qed.

(** X18: the services are put last, in the order of the configuration: a
    name that no service takes keeps its built-in page (the home page
    under the empty name, the job table under jobs), and a name that
    services take goes to the last of them, built-in pages included. *)
Theorem Root_init_services_come_last
    (config : Config) (app_poller : Poller) (app_launcher : Launcher) :
  let r := Root_init scheme_lower config app_poller app_launcher in
  ("jobs"%string ∉ (cfg_services config).*1 ->
   ro_children r !! "jobs"%string = Some (JobsResource (ro_local_items r)))
  /\ (EmptyString ∉ (cfg_services config).*1 ->
      ro_children r !! EmptyString = Some (HomeResource (ro_local_items r)))
  /\ (forall before after name cls,
        cfg_services config = before ++ (name, cls) :: after ->
        name ∉ after.*1 ->
        ro_children r !! name = Some (ServiceResource cls)).
Proof.
  intros r. unfold r, Root_init. cbn [ro_children ro_local_items].
  split; [|split].
  - intros Hfree. rewrite put_services_lookup_other by assumption.
    unfold builtin_children, putChild. now rewrite lookup_insert_eq.
  - intros Hfree. rewrite put_services_lookup_other by assumption.
    unfold builtin_children, putChild.
    rewrite lookup_insert_ne by discriminate.
    destruct (cfg_items_dir config) as [d|];
      [destruct (local_items_of scheme_lower (Some d))|];
      rewrite ?(lookup_insert_ne _ "items"%string) by discriminate;
      now rewrite lookup_insert_eq.
  - intros before after name cls -> Hlast.
    now apply put_services_lookup_last.
Qed.

End RootProperties.

Example ex_root_init :
  let config :=
    {| cfg_debug := false; cfg_runner := "scrapyd.runner";
       cfg_prefix_header := "x-forwarded-prefix";
       cfg_logs_dir := Some "logs"; cfg_items_dir := Some "/var/items";
       cfg_node_name := "node";
       cfg_services := [ ("schedule.json", "scrapyd.webservice.Schedule");
                         ("cancel.json", "scrapyd.webservice.Cancel");
                         ("cancel.json", "custom.Cancel") ] |}%string in
  let r := Root_init (fun _ => EmptyString) config
                     {| queues := [] |} {| processes := []; finished := [] |} in
  ro_children r !! "cancel.json"%string = Some (ServiceResource "custom.Cancel")
  /\ ro_children r !! "items"%string = Some (StaticFile "/var/items")
  /\ cancel_available (Jobs_init r) = true
  /\ gen_css (Jobs_init r)
     = Some ("#jobs>thead td {text-align: center; font-weight: bold}" +:+ nl
             +:+ "#jobs>tbody>tr:first-child {background-color: #eee}").
Proof. repeat split; vm_compute; reflexivity. Qed.

(** ** The clock and the running rows *)

Lemma index_lookup (x : string) (l : list string) (i : nat) :
  index x l = Some i -> l !! i = Some x.
Proof.
  revert i. induction l as [|y l IH]; intros i; [discriminate|]. cbn.
  destruct (String.eqb_spec y x) as [->|Hne].
  - intros [= <-]. reflexivity.
  - destruct (index x l) as [j|]; [|discriminate].
    intros [= <-]. cbn. now apply IH.
Qed.

Section RunningRows.
Context `{JobStorage}.

(** X19: the Runtime of a running row is negative exactly when the clock
    reading is before the start time, be it by one microsecond: flooring
    then gives minus one second, which [str] prints with the days first,
    as in -1 day, 23:59:59. *)
Theorem running_runtime_negative_iff_clock_before_start
    (self : Jobs) (now : datetime) (p : process) :
  datetime_wf now -> datetime_wf (start_time p) ->
  exists d r,
    running_cells self now p = Some d
    /\ d !! "Runtime"%string = Some (PyTimedelta r)
    /\ (days r < 0 <-> datetime_us now < datetime_us (start_time p))
    /\ (days r < 0 -> exists rest, timedelta_str r = String "-" rest)
    /\ (datetime_us now - datetime_us (start_time p) = -1 ->
        timedelta_str r = "-1 day, 23:59:59"%string).
Proof.
  intros Hnow Hstart.
  destruct (running_cells_some self now p Hnow Hstart)
    as (elapsed & _ & Hwf & Hus & Hcells).
  exists (running_dict self p (Moment (on_the_second (start_time p)))
            (Duration (whole_seconds elapsed))),
         (whole_seconds elapsed).
  split; [exact Hcells|]. split; [reflexivity|].
  destruct elapsed as [d s us]. destruct Hwf as (Hd & Hs & Hu).
  unfold timedelta_us in Hus. cbn in Hd, Hs, Hu, Hus.
  unfold whole_seconds. cbn [days seconds microseconds].
  split; [|split].
  - split; intros Hneg; nia.
  - intros Hneg. unfold timedelta_str. cbn [days seconds microseconds].
    destruct d as [|d|d]; [lia|lia|].
    destruct (divmod s 60) as [mm ss]. destruct (divmod mm 60) as [hh mm'].
    cbn. eauto.
  - intros Hlate.
    assert (d = -1 /\ s = 86399) as [-> ->] by lia.
    reflexivity.
Qed.

(** X20: of the ten cells of a running row only the Runtime depends on
    the clock: at two readings every other cell is the same. *)
Theorem clock_touches_the_runtime_cell_only
    (self : Jobs) (now1 now2 : datetime) (p : process) :
  datetime_wf now1 -> datetime_wf now2 -> datetime_wf (start_time p) ->
  exists cells1 cells2,
    (d ← running_cells self now1 p; prep_row_cells (RowDict d)) = Some cells1
    /\ (d ← running_cells self now2 p; prep_row_cells (RowDict d)) = Some cells2
    /\ forall column,
         column <> "Runtime"%string ->
         cell_of column cells1 = cell_of column cells2.
Proof.
  intros Hnow1 Hnow2 Hstart.
  destruct (running_cells_some self now1 p Hnow1 Hstart)
    as (elapsed1 & _ & _ & _ & ->).
  destruct (running_cells_some self now2 p Hnow2 Hstart)
    as (elapsed2 & _ & _ & _ & ->).
  cbn [mbind option_bind]. rewrite !running_row_cells.
  eexists _, _. split; [reflexivity|]. split; [reflexivity|].
  intros column Hcolumn. unfold cell_of.
  destruct (index column header_cols) as [i|] eqn:Hi; [|reflexivity].
  apply index_lookup in Hi. cbn [mbind option_bind].
  do 5 (destruct i as [|i]; [reflexivity|]).
  destruct i as [|i]; [cbn in Hi; congruence|].
  do 4 (destruct i as [|i]; [reflexivity|]).
  reflexivity.
Qed.

End RunningRows.

Lemma running_runtime_negative_witness :
  exists d r,
    running_cells (H := Sample.storage) Sample.bare
                  (Datetime 738900 37805 249999) Sample.running_job = Some d
    /\ d !! "Runtime"%string = Some (PyTimedelta r)
    /\ timedelta_str r = "-1 day, 23:59:59"%string.
Proof.
  destruct (running_runtime_negative_iff_clock_before_start
              (H := Sample.storage) Sample.bare
              (Datetime 738900 37805 249999) Sample.running_job)
    as (d & r & Hcells & Hruntime & _ & _ & Hlate).
  - unfold datetime_wf, MAXORDINAL. cbn. lia.
  - unfold datetime_wf, MAXORDINAL. cbn. lia.
  - exists d, r. split; [exact Hcells|]. split; [exact Hruntime|].
    apply Hlate. reflexivity.
Defined.

Lemma clock_touches_the_runtime_cell_only_witness :
  exists cells1 cells2,
    (d ← running_cells (H := Sample.storage) Sample.bare Sample.T_90_7
           Sample.running_job;
     prep_row_cells (RowDict d)) = Some cells1
    /\ (d ← running_cells (H := Sample.storage) Sample.bare Sample.T_91_7
              Sample.running_job;
        prep_row_cells (RowDict d)) = Some cells2
    /\ cell_of "Start" cells1 = cell_of "Start" cells2.
Proof.
  destruct (clock_touches_the_runtime_cell_only (H := Sample.storage)
              Sample.bare Sample.T_90_7 Sample.T_91_7 Sample.running_job)
    as (cells1 & cells2 & H1 & H2 & Hsame).
  - unfold datetime_wf, MAXORDINAL. cbn. lia.
  - unfold datetime_wf, MAXORDINAL. cbn. lia.
  - unfold datetime_wf, MAXORDINAL. cbn. lia.
  - exists cells1, cells2. split; [exact H1|]. split; [exact H2|].
    apply Hsame. discriminate.
Defined.
